(** * QQBanPlugin: the leave-blacklist plugin of astrbot_plugin_qq_ban

    A shallow embedding of [main.py] and the properties of its blacklist
    store, its group scope check and its two event handlers.

    Conventions of the embedding.
    - A Python [str] is a [string]: the UTF-8 bytes of the text, a lone
      surrogate in the three-byte form of its code point.  Byte order is
      code-point order, so [sorted] is exact.  A string is iterated
      character by character; [isspace], [isdigit] and the printable test of
      [repr] read the tables of Unicode 14.0.0, the ones of CPython 3.11.
    - A value that comes from JSON (the raw OneBot payload, the plugin
      configuration, the contents of a blacklist file) is a [pyval]: JSON
      without floating-point numbers.
    - A method of the plugin is a computation [M A]: it reads and writes the
      [world] (the blacklist files and the chronological list of the
      effects the host can observe) and returns a value or raises.  A handler
      is an asynchronous generator; the host runs it to its end, and what it
      yields is recorded in the order it is yielded.
    - The file store is a Linux one and it can fail.  A path is absent, holds
      bytes that [json.load] rejects, holds a JSON document, is taken by
      something that cannot be opened as a file, or lies on a device that
      fails during a write.  A path with a NUL or a character that cannot be
      encoded, a name of more than 255 bytes and a path of more than 4095
      bytes are refused by the system.  [json.dump] followed by [json.load]
      gives the document back when the write goes through, so a file is kept
      as the document it holds; a write that stops half-way leaves bytes that
      [json.load] rejects.
    - A path is a key of the store as the text it is: two texts that name
      one file (a doubled separator, a [.] between two separators) are two
      keys, and directories are not recorded.  [logger] calls have no effect
      on the world.
    - [str.format] is a variable of the development: the handlers are
      verified for every formatter. *)

From Stdlib Require Import Ascii String ZArith NArith.
From stdpp Require Import gmap strings list sorting pretty.

Set Warnings "-register-all".

Local Open Scope string_scope.

(** ** Python values *)

Module Py.

Inductive pyval :=
| PNone
| PBool (b : bool)
| PInt (n : Z)
| PStr (s : string)
| PList (items : list pyval)
| PDict (entries : list (string * pyval)).

(** Exceptions, all of them subclasses of [Exception].  [ValueError] stands
    for its subclass [UnicodeEncodeError] too, and [OSError] for its
    subclasses other than [FileNotFoundError]. *)
Inductive exn :=
| TypeError
| AttributeError
| KeyError
| ValueError
| IndexError
| FileNotFoundError
| OSError
| JSONDecodeError
| ActionFailed.

Inductive res (A : Type) :=
| Ret (a : A)
| Raise (e : exn).

Arguments Ret {A} a.
Arguments Raise {A} e.

(** [bool(v)] *)
Definition truthy (v : pyval) : bool :=
  match v with
  | PNone => false
  | PBool b => b
  | PInt n => negb (n =? 0)%Z
  | PStr s => negb (String.eqb s "")
  | PList items => match items with [] => false | _ => true end
  | PDict entries => match entries with [] => false | _ => true end
  end.

(** [a or b] *)
Definition or_else (a b : pyval) : pyval := if truthy a then a else b.

(** [v == s] for a string literal [s] *)
Definition eq_str (v : pyval) (s : string) : bool :=
  match v with
  | PStr s' => String.eqb s' s
  | _ => false
  end.

Definition squote : ascii := "039"%char.
Definition dquote : ascii := "034"%char.
Definition backslash : ascii := "092"%char.

Fixpoint contains_char (c : ascii) (s : string) : bool :=
  match s with
  | EmptyString => false
  | String a s' => Ascii.eqb a c || contains_char c s'
  end.

(** *** Characters

    A string is read as characters the way UTF-8 is: a lead byte says how
    many continuation bytes follow it.  A lone surrogate is kept in the
    three-byte form its code point has.  A byte that fits no character is a
    character of its own, with a code point outside Unicode. *)

Definition is_cont (b : ascii) : bool :=
  let n := N_of_ascii b in ((128 <=? n) && (n <? 192))%N.

Definition utf8_len (b : ascii) : nat :=
  let n := N_of_ascii b in
  if (n <? 192)%N then 1
  else if (n <? 224)%N then 2
  else if (n <? 240)%N then 3
  else if (n <? 248)%N then 4
  else 1.

Fixpoint chars_go (cur : string) (rem : nat) (s : string) : list string :=
  match s with
  | EmptyString => [cur]
  | String b s' =>
      match rem with
      | S rem' =>
          if is_cont b then chars_go (cur +:+ String b "") rem' s'
          else cur :: chars_go (String b "") (utf8_len b - 1) s'
      | O => cur :: chars_go (String b "") (utf8_len b - 1) s'
      end
  end.

(** The characters of a string, each as the string of its bytes. *)
Definition split_chars (s : string) : list string :=
  match s with
  | EmptyString => []
  | String b s' => chars_go (String b "") (utf8_len b - 1) s'
  end.

Definition concat_chars (cs : list string) : string :=
  fold_right String.append "" cs.

Definition lead_bits (b : ascii) : N :=
  let n := N_of_ascii b in
  (if n <? 128 then n
   else if n <? 192 then 1114112 + n
   else if n <? 224 then n mod 32
   else if n <? 240 then n mod 16
   else if n <? 248 then n mod 8
   else 1114112 + n)%N.

Fixpoint cont_bits (acc : N) (s : string) : N :=
  match s with
  | EmptyString => acc
  | String b s' => cont_bits (acc * 64 + N_of_ascii b mod 64)%N s'
  end.

(** [ord(c)] of a character. *)
Definition code_point (c : string) : N :=
  match c with
  | EmptyString => 0%N
  | String b s' => cont_bits (lead_bits b) s'
  end.

Fixpoint in_ranges (n : N) (rs : list (N * N)) : bool :=
  match rs with
  | [] => false
  | (lo, hi) :: rs' => ((lo <=? n) && (n <=? hi))%N || in_ranges n rs'
  end.

(** The tables are those of the Unicode database 14.0.0, the one of
    CPython 3.11. *)

(** The code points of [str.isspace]. *)
Definition space_ranges : list (N * N) :=
  [(9, 13); (28, 32); (133, 133); (160, 160); (5760, 5760); (8192, 8202);
   (8232, 8233); (8239, 8239); (8287, 8287); (12288, 12288)]%N.

(** The code points of [str.isdigit]. *)
Definition digit_ranges : list (N * N) :=
  [(48, 57); (178, 179); (185, 185); (1632, 1641); (1776, 1785);
   (1984, 1993); (2406, 2415); (2534, 2543); (2662, 2671); (2790, 2799);
   (2918, 2927); (3046, 3055); (3174, 3183); (3302, 3311); (3430, 3439);
   (3558, 3567); (3664, 3673); (3792, 3801); (3872, 3881); (4160, 4169);
   (4240, 4249); (4969, 4977); (6112, 6121); (6160, 6169); (6470, 6479);
   (6608, 6618); (6784, 6793); (6800, 6809); (6992, 7001); (7088, 7097);
   (7232, 7241); (7248, 7257); (8304, 8304); (8308, 8313); (8320, 8329);
   (9312, 9320); (9332, 9340); (9352, 9360); (9450, 9450); (9461, 9469);
   (9471, 9471); (10102, 10110); (10112, 10120); (10122, 10130);
   (42528, 42537); (43216, 43225); (43264, 43273); (43472, 43481);
   (43504, 43513); (43600, 43609); (44016, 44025); (65296, 65305);
   (66720, 66729); (68160, 68163); (68912, 68921); (69216, 69224);
   (69714, 69722); (69734, 69743); (69872, 69881); (69942, 69951);
   (70096, 70105); (70384, 70393); (70736, 70745); (70864, 70873);
   (71248, 71257); (71360, 71369); (71472, 71481); (71904, 71913);
   (72016, 72025); (72784, 72793); (73040, 73049); (73120, 73129);
   (92768, 92777); (92864, 92873); (93008, 93017); (120782, 120831);
   (123200, 123209); (123632, 123641); (125264, 125273); (127232, 127242);
   (130032, 130041)]%N.

(** The code points for which [str.isprintable] is false: [repr] escapes them. *)
Definition unprintable_ranges : list (N * N) :=
  [(0, 31); (127, 160); (173, 173); (888, 889); (896, 899); (907, 907);
   (909, 909); (930, 930); (1328, 1328); (1367, 1368); (1419, 1420);
   (1424, 1424); (1480, 1487); (1515, 1518); (1525, 1541); (1564, 1564);
   (1757, 1757); (1806, 1807); (1867, 1868); (1970, 1983); (2043, 2044);
   (2094, 2095); (2111, 2111); (2140, 2141); (2143, 2143); (2155, 2159);
   (2191, 2199); (2274, 2274); (2436, 2436); (2445, 2446); (2449, 2450);
   (2473, 2473); (2481, 2481); (2483, 2485); (2490, 2491); (2501, 2502);
   (2505, 2506); (2511, 2518); (2520, 2523); (2526, 2526); (2532, 2533);
   (2559, 2560); (2564, 2564); (2571, 2574); (2577, 2578); (2601, 2601);
   (2609, 2609); (2612, 2612); (2615, 2615); (2618, 2619); (2621, 2621);
   (2627, 2630); (2633, 2634); (2638, 2640); (2642, 2648); (2653, 2653);
   (2655, 2661); (2679, 2688); (2692, 2692); (2702, 2702); (2706, 2706);
   (2729, 2729); (2737, 2737); (2740, 2740); (2746, 2747); (2758, 2758);
   (2762, 2762); (2766, 2767); (2769, 2783); (2788, 2789); (2802, 2808);
   (2816, 2816); (2820, 2820); (2829, 2830); (2833, 2834); (2857, 2857);
   (2865, 2865); (2868, 2868); (2874, 2875); (2885, 2886); (2889, 2890);
   (2894, 2900); (2904, 2907); (2910, 2910); (2916, 2917); (2936, 2945);
   (2948, 2948); (2955, 2957); (2961, 2961); (2966, 2968); (2971, 2971);
   (2973, 2973); (2976, 2978); (2981, 2983); (2987, 2989); (3002, 3005);
   (3011, 3013); (3017, 3017); (3022, 3023); (3025, 3030); (3032, 3045);
   (3067, 3071); (3085, 3085); (3089, 3089); (3113, 3113); (3130, 3131);
   (3141, 3141); (3145, 3145); (3150, 3156); (3159, 3159); (3163, 3164);
   (3166, 3167); (3172, 3173); (3184, 3190); (3213, 3213); (3217, 3217);
   (3241, 3241); (3252, 3252); (3258, 3259); (3269, 3269); (3273, 3273);
   (3278, 3284); (3287, 3292); (3295, 3295); (3300, 3301); (3312, 3312);
   (3315, 3327); (3341, 3341); (3345, 3345); (3397, 3397); (3401, 3401);
   (3408, 3411); (3428, 3429); (3456, 3456); (3460, 3460); (3479, 3481);
   (3506, 3506); (3516, 3516); (3518, 3519); (3527, 3529); (3531, 3534);
   (3541, 3541); (3543, 3543); (3552, 3557); (3568, 3569); (3573, 3584);
   (3643, 3646); (3676, 3712); (3715, 3715); (3717, 3717); (3723, 3723);
   (3748, 3748); (3750, 3750); (3774, 3775); (3781, 3781); (3783, 3783);
   (3790, 3791); (3802, 3803); (3808, 3839); (3912, 3912); (3949, 3952);
   (3992, 3992); (4029, 4029); (4045, 4045); (4059, 4095); (4294, 4294);
   (4296, 4300); (4302, 4303); (4681, 4681); (4686, 4687); (4695, 4695);
   (4697, 4697); (4702, 4703); (4745, 4745); (4750, 4751); (4785, 4785);
   (4790, 4791); (4799, 4799); (4801, 4801); (4806, 4807); (4823, 4823);
   (4881, 4881); (4886, 4887); (4955, 4956); (4989, 4991); (5018, 5023);
   (5110, 5111); (5118, 5119); (5760, 5760); (5789, 5791); (5881, 5887);
   (5910, 5918); (5943, 5951); (5972, 5983); (5997, 5997); (6001, 6001);
   (6004, 6015); (6110, 6111); (6122, 6127); (6138, 6143); (6158, 6158);
   (6170, 6175); (6265, 6271); (6315, 6319); (6390, 6399); (6431, 6431);
   (6444, 6447); (6460, 6463); (6465, 6467); (6510, 6511); (6517, 6527);
   (6572, 6575); (6602, 6607); (6619, 6621); (6684, 6685); (6751, 6751);
   (6781, 6782); (6794, 6799); (6810, 6815); (6830, 6831); (6863, 6911);
   (6989, 6991); (7039, 7039); (7156, 7163); (7224, 7226); (7242, 7244);
   (7305, 7311); (7355, 7356); (7368, 7375); (7419, 7423); (7958, 7959);
   (7966, 7967); (8006, 8007); (8014, 8015); (8024, 8024); (8026, 8026);
   (8028, 8028); (8030, 8030); (8062, 8063); (8117, 8117); (8133, 8133);
   (8148, 8149); (8156, 8156); (8176, 8177); (8181, 8181); (8191, 8207);
   (8232, 8239); (8287, 8303); (8306, 8307); (8335, 8335); (8349, 8351);
   (8385, 8399); (8433, 8447); (8588, 8591); (9255, 9279); (9291, 9311);
   (11124, 11125); (11158, 11158); (11508, 11512); (11558, 11558);
   (11560, 11564); (11566, 11567); (11624, 11630); (11633, 11646);
   (11671, 11679); (11687, 11687); (11695, 11695); (11703, 11703);
   (11711, 11711); (11719, 11719); (11727, 11727); (11735, 11735);
   (11743, 11743); (11870, 11903); (11930, 11930); (12020, 12031);
   (12246, 12271); (12284, 12288); (12352, 12352); (12439, 12440);
   (12544, 12548); (12592, 12592); (12687, 12687); (12772, 12783);
   (12831, 12831); (42125, 42127); (42183, 42191); (42540, 42559);
   (42744, 42751); (42955, 42959); (42962, 42962); (42964, 42964);
   (42970, 42993); (43053, 43055); (43066, 43071); (43128, 43135);
   (43206, 43213); (43226, 43231); (43348, 43358); (43389, 43391);
   (43470, 43470); (43482, 43485); (43519, 43519); (43575, 43583);
   (43598, 43599); (43610, 43611); (43715, 43738); (43767, 43776);
   (43783, 43784); (43791, 43792); (43799, 43807); (43815, 43815);
   (43823, 43823); (43884, 43887); (44014, 44015); (44026, 44031);
   (55204, 55215); (55239, 55242); (55292, 63743); (64110, 64111);
   (64218, 64255); (64263, 64274); (64280, 64284); (64311, 64311);
   (64317, 64317); (64319, 64319); (64322, 64322); (64325, 64325);
   (64451, 64466); (64912, 64913); (64968, 64974); (64976, 65007);
   (65050, 65055); (65107, 65107); (65127, 65127); (65132, 65135);
   (65141, 65141); (65277, 65280); (65471, 65473); (65480, 65481);
   (65488, 65489); (65496, 65497); (65501, 65503); (65511, 65511);
   (65519, 65531); (65534, 65535); (65548, 65548); (65575, 65575);
   (65595, 65595); (65598, 65598); (65614, 65615); (65630, 65663);
   (65787, 65791); (65795, 65798); (65844, 65846); (65935, 65935);
   (65949, 65951); (65953, 65999); (66046, 66175); (66205, 66207);
   (66257, 66271); (66300, 66303); (66340, 66348); (66379, 66383);
   (66427, 66431); (66462, 66462); (66500, 66503); (66518, 66559);
   (66718, 66719); (66730, 66735); (66772, 66775); (66812, 66815);
   (66856, 66863); (66916, 66926); (66939, 66939); (66955, 66955);
   (66963, 66963); (66966, 66966); (66978, 66978); (66994, 66994);
   (67002, 67002); (67005, 67071); (67383, 67391); (67414, 67423);
   (67432, 67455); (67462, 67462); (67505, 67505); (67515, 67583);
   (67590, 67591); (67593, 67593); (67638, 67638); (67641, 67643);
   (67645, 67646); (67670, 67670); (67743, 67750); (67760, 67807);
   (67827, 67827); (67830, 67834); (67868, 67870); (67898, 67902);
   (67904, 67967); (68024, 68027); (68048, 68049); (68100, 68100);
   (68103, 68107); (68116, 68116); (68120, 68120); (68150, 68151);
   (68155, 68158); (68169, 68175); (68185, 68191); (68256, 68287);
   (68327, 68330); (68343, 68351); (68406, 68408); (68438, 68439);
   (68467, 68471); (68498, 68504); (68509, 68520); (68528, 68607);
   (68681, 68735); (68787, 68799); (68851, 68857); (68904, 68911);
   (68922, 69215); (69247, 69247); (69290, 69290); (69294, 69295);
   (69298, 69375); (69416, 69423); (69466, 69487); (69514, 69551);
   (69580, 69599); (69623, 69631); (69710, 69713); (69750, 69758);
   (69821, 69821); (69827, 69839); (69865, 69871); (69882, 69887);
   (69941, 69941); (69960, 69967); (70007, 70015); (70112, 70112);
   (70133, 70143); (70162, 70162); (70207, 70271); (70279, 70279);
   (70281, 70281); (70286, 70286); (70302, 70302); (70314, 70319);
   (70379, 70383); (70394, 70399); (70404, 70404); (70413, 70414);
   (70417, 70418); (70441, 70441); (70449, 70449); (70452, 70452);
   (70458, 70458); (70469, 70470); (70473, 70474); (70478, 70479);
   (70481, 70486); (70488, 70492); (70500, 70501); (70509, 70511);
   (70517, 70655); (70748, 70748); (70754, 70783); (70856, 70863);
   (70874, 71039); (71094, 71095); (71134, 71167); (71237, 71247);
   (71258, 71263); (71277, 71295); (71354, 71359); (71370, 71423);
   (71451, 71452); (71468, 71471); (71495, 71679); (71740, 71839);
   (71923, 71934); (71943, 71944); (71946, 71947); (71956, 71956);
   (71959, 71959); (71990, 71990); (71993, 71994); (72007, 72015);
   (72026, 72095); (72104, 72105); (72152, 72153); (72165, 72191);
   (72264, 72271); (72355, 72367); (72441, 72703); (72713, 72713);
   (72759, 72759); (72774, 72783); (72813, 72815); (72848, 72849);
   (72872, 72872); (72887, 72959); (72967, 72967); (72970, 72970);
   (73015, 73017); (73019, 73019); (73022, 73022); (73032, 73039);
   (73050, 73055); (73062, 73062); (73065, 73065); (73103, 73103);
   (73106, 73106); (73113, 73119); (73130, 73439); (73465, 73647);
   (73649, 73663); (73714, 73726); (74650, 74751); (74863, 74863);
   (74869, 74879); (75076, 77711); (77811, 77823); (78895, 82943);
   (83527, 92159); (92729, 92735); (92767, 92767); (92778, 92781);
   (92863, 92863); (92874, 92879); (92910, 92911); (92918, 92927);
   (92998, 93007); (93018, 93018); (93026, 93026); (93048, 93052);
   (93072, 93759); (93851, 93951); (94027, 94030); (94088, 94094);
   (94112, 94175); (94181, 94191); (94194, 94207); (100344, 100351);
   (101590, 101631); (101641, 110575); (110580, 110580); (110588, 110588);
   (110591, 110591); (110883, 110927); (110931, 110947); (110952, 110959);
   (111356, 113663); (113771, 113775); (113789, 113791); (113801, 113807);
   (113818, 113819); (113824, 118527); (118574, 118575); (118599, 118607);
   (118724, 118783); (119030, 119039); (119079, 119080); (119155, 119162);
   (119275, 119295); (119366, 119519); (119540, 119551); (119639, 119647);
   (119673, 119807); (119893, 119893); (119965, 119965); (119968, 119969);
   (119971, 119972); (119975, 119976); (119981, 119981); (119994, 119994);
   (119996, 119996); (120004, 120004); (120070, 120070); (120075, 120076);
   (120085, 120085); (120093, 120093); (120122, 120122); (120127, 120127);
   (120133, 120133); (120135, 120137); (120145, 120145); (120486, 120487);
   (120780, 120781); (121484, 121498); (121504, 121504); (121520, 122623);
   (122655, 122879); (122887, 122887); (122905, 122906); (122914, 122914);
   (122917, 122917); (122923, 123135); (123181, 123183); (123198, 123199);
   (123210, 123213); (123216, 123535); (123567, 123583); (123642, 123646);
   (123648, 124895); (124903, 124903); (124908, 124908); (124911, 124911);
   (124927, 124927); (125125, 125126); (125143, 125183); (125260, 125263);
   (125274, 125277); (125280, 126064); (126133, 126208); (126270, 126463);
   (126468, 126468); (126496, 126496); (126499, 126499); (126501, 126502);
   (126504, 126504); (126515, 126515); (126520, 126520); (126522, 126522);
   (126524, 126529); (126531, 126534); (126536, 126536); (126538, 126538);
   (126540, 126540); (126544, 126544); (126547, 126547); (126549, 126550);
   (126552, 126552); (126554, 126554); (126556, 126556); (126558, 126558);
   (126560, 126560); (126563, 126563); (126565, 126566); (126571, 126571);
   (126579, 126579); (126584, 126584); (126589, 126589); (126591, 126591);
   (126602, 126602); (126620, 126624); (126628, 126628); (126634, 126634);
   (126652, 126703); (126706, 126975); (127020, 127023); (127124, 127135);
   (127151, 127152); (127168, 127168); (127184, 127184); (127222, 127231);
   (127406, 127461); (127491, 127503); (127548, 127551); (127561, 127567);
   (127570, 127583); (127590, 127743); (128728, 128732); (128749, 128751);
   (128765, 128767); (128884, 128895); (128985, 128991); (129004, 129007);
   (129009, 129023); (129036, 129039); (129096, 129103); (129114, 129119);
   (129160, 129167); (129198, 129199); (129202, 129279); (129620, 129631);
   (129646, 129647); (129653, 129655); (129661, 129663); (129671, 129679);
   (129709, 129711); (129723, 129727); (129734, 129743); (129754, 129759);
   (129768, 129775); (129783, 129791); (129939, 129939); (129995, 130031);
   (130042, 131071); (173792, 173823); (177977, 177983); (178206, 178207);
   (183970, 183983); (191457, 194559); (195102, 196607); (201547, 917759);
   (918000, 1114111)]%N.

Definition is_space_char (c : string) : bool := in_ranges (code_point c) space_ranges.

Definition is_digit_char (c : string) : bool := in_ranges (code_point c) digit_ranges.

Definition is_surrogate (c : string) : bool :=
  let n := code_point c in ((55296 <=? n) && (n <=? 57343))%N.

Definition hex_digit (n : N) : ascii :=
  if (n <? 10)%N then ascii_of_N (48 + n) else ascii_of_N (87 + n).

Fixpoint hex (width : nat) (n : N) : string :=
  match width with
  | O => ""
  | S width' => hex width' (n / 16)%N +:+ String (hex_digit (n mod 16)%N) ""
  end.

Definition repr_char (q : ascii) (c : string) : string :=
  let n := code_point c in
  if String.eqb c (String q "") || String.eqb c (String backslash "")
  then String backslash c
  else if (n =? 9)%N then "\t"
  else if (n =? 10)%N then "\n"
  else if (n =? 13)%N then "\r"
  else if (n <? 32)%N || (n =? 127)%N then "\x" +:+ hex 2 n
  else if (n <? 127)%N then c
  else if in_ranges n unprintable_ranges then
    if (n <? 256)%N then "\x" +:+ hex 2 n
    else if (n <? 65536)%N then "\u" +:+ hex 4 n
    else "\U" +:+ hex 8 n
  else c.

Definition repr_chars (q : ascii) (s : string) : string :=
  concat_chars (map (repr_char q) (split_chars s)).

(** [repr(s)] of a string: single quotes unless the text has a single quote
    and no double quote. *)
Definition repr_str (s : string) : string :=
  let q := if contains_char squote s && negb (contains_char dquote s)
           then dquote else squote in
  String q (repr_chars q s +:+ String q "").

Fixpoint join (sep : string) (l : list string) : string :=
  match l with
  | [] => ""
  | [x] => x
  | x :: l' => x +:+ sep +:+ join sep l'
  end.

Fixpoint repr (v : pyval) : string :=
  match v with
  | PNone => "None"
  | PBool true => "True"
  | PBool false => "False"
  | PInt n => pretty n
  | PStr s => repr_str s
  | PList items => "[" +:+ join ", " (map repr items) +:+ "]"
  | PDict entries =>
      "{" +:+ join ", " (map (λ kv, repr_str (fst kv) +:+ ": " +:+ repr (snd kv)) entries) +:+ "}"
  end.

(** [str(v)] *)
Definition str (v : pyval) : string :=
  match v with
  | PStr s => s
  | _ => repr v
  end.

Definition chars (s : string) : list pyval := map PStr (split_chars s).

(** [for x in v]: the items of a list, the keys of a dict, the characters
    of a string; anything else is not iterable. *)
Definition iter (v : pyval) : res (list pyval) :=
  match v with
  | PList items => Ret items
  | PDict entries => Ret (map (λ kv, PStr (fst kv)) entries)
  | PStr s => Ret (chars s)
  | _ => Raise TypeError
  end.

(** [d.get(key)] and [d.get(key, default)] *)
Fixpoint dict_get (d : list (string * pyval)) (key : string) (default : pyval) : pyval :=
  match d with
  | [] => default
  | (k, v) :: d' => if String.eqb k key then v else dict_get d' key default
  end.

(** [d[key] = v] *)
Fixpoint dict_set (d : list (string * pyval)) (key : string) (v : pyval)
  : list (string * pyval) :=
  match d with
  | [] => [(key, v)]
  | (k, v') :: d' =>
      if String.eqb k key then (k, v) :: d' else (k, v') :: dict_set d' key v
  end.

(** An ASCII white-space byte: the characters of [str.isspace] below 128. *)
Definition ascii_space (c : ascii) : bool :=
  let n := N_of_ascii c in
  ((9 <=? n) && (n <=? 13) || (28 <=? n) && (n <=? 32))%N.

Fixpoint drop_spaces (cs : list string) : list string :=
  match cs with
  | [] => []
  | c :: cs' => if is_space_char c then drop_spaces cs' else cs
  end.

(** [s.strip()]: the white-space characters at both ends are removed. *)
Definition strip (s : string) : string :=
  concat_chars (rev (drop_spaces (rev (drop_spaces (split_chars s))))).

(** [s.isdigit()] *)
Definition isdigit (s : string) : bool :=
  negb (String.eqb s "") && forallb is_digit_char (split_chars s).

(** The string of the given bytes. *)
Definition of_bytes (bytes : list N) : string :=
  string_of_list_ascii (map ascii_of_N bytes).

(** [sorted(xs)] on strings *)
Definition sorted (xs : list string) : list string := merge_sort String.le xs.

End Py.

Import Py.

(** ** The world of the plugin and its computations *)

(** What is at a path of the file store: a file with bytes that [json.load]
    rejects; a file with a JSON document; something that can neither be read
    nor replaced nor made a directory of (a directory where a file is wanted,
    a file or a path the process may not use); or a file on a device that
    fails while it is written (no space left), holding a document or bytes
    that [json.load] rejects. *)
Inductive fcontent :=
| Garbled
| Json (doc : pyval)
| Blocked
| Fragile (doc : option pyval).

(** What the host observes of a handler: a call of the protocol client
    ([client.api.call_action] with the payload as keyword arguments) and a result yielded to the
    conversation ([yield event.plain_result(message)]). *)
Inductive effect :=
| CallAction (action : string) (payload : list (string * pyval))
| Yield (message : string).

Record world := World {
  files : gmap string fcontent;
  trace : list effect
}.

Definition M (A : Type) : Type := world → res A * world.

Definition ret {A} (a : A) : M A := λ w, (Ret a, w).

Definition raise {A} (e : exn) : M A := λ w, (Raise e, w).

Definition bind {A B} (m : M A) (k : A → M B) : M B :=
  λ w, match m w with
       | (Ret a, w') => k a w'
       | (Raise e, w') => (Raise e, w')
       end.

(** [try: body except Exception as exc: handler]: what [body] did to the
    world before it raised stays done. *)
Definition try_except {A} (body : M A) (handler : exn → M A) : M A :=
  λ w, match body w with
       | (Ret a, w') => (Ret a, w')
       | (Raise e, w') => handler e w'
       end.

Definition lift {A} (r : res A) : M A := λ w, (r, w).

Definition emit (e : effect) : M unit :=
  λ w, (Ret tt, World (files w) (trace w ++ [e])).

Notation "'let!' x ':=' m 'in' k" := (bind m (λ x, k))
  (at level 10, x name, m at level 100, k at level 200, only parsing).
Notation "m ';;' k" := (bind m (λ _, k))
  (at level 100, k at level 200, right associativity, only parsing).

(** ** [os.path], [os] and [json] on the file store *)

(** [os.path.join(a, b)] (POSIX) *)
Definition path_join (a b : string) : string :=
  match b with
  | String "/" _ => b
  | _ =>
      match String.rev a with
      | EmptyString => b
      | String "/" _ => a +:+ b
      | _ => a +:+ "/" +:+ b
      end
  end.

(** [path.split("/")] *)
Fixpoint components_go (cur : string) (s : string) : list string :=
  match s with
  | EmptyString => [cur]
  | String b s' =>
      if Ascii.eqb b "/" then cur :: components_go "" s'
      else components_go (cur +:+ String b "") s'
  end.

Definition components (path : string) : list string := components_go "" path.

(** The path itself and the directories above it. *)
Fixpoint prefixes_go (cur : string) (s : string) : list string :=
  match s with
  | EmptyString => [cur]
  | String b s' =>
      if Ascii.eqb b "/" then cur :: prefixes_go (cur +:+ "/") s'
      else prefixes_go (cur +:+ String b "") s'
  end.

Definition prefixes (path : string) : list string := prefixes_go "" path.

(** [os.fsencode]: a lone surrogate is refused, except those that stand for
    one undecodable byte (U+DC80 to U+DCFF). *)
Definition is_escape_byte (c : string) : bool :=
  let n := code_point c in ((56448 <=? n) && (n <=? 56575))%N.

Definition fs_encodable (name : string) : bool :=
  forallb (λ c, negb (is_surrogate c) || is_escape_byte c) (split_chars name).

Definition fs_length (name : string) : N :=
  fold_right (λ c n, ((if is_escape_byte c then 1 else N.of_nat (String.length c)) + n)%N)
             0%N (split_chars name).

(** What is wrong with one name of a path: an embedded NUL or a character
    that cannot be encoded ([ValueError]), or more than 255 bytes
    ([OSError], name too long). *)
Definition component_error (name : string) : option exn :=
  if contains_char "000" name || negb (fs_encodable name) then Some ValueError
  else if (255 <? fs_length name)%N then Some OSError
  else None.

(** The names are tried from the left, as [os.makedirs] makes the
    directories; a path of more than 4095 bytes is too long as well. *)
Fixpoint scan_components (len : N) (names : list string) : option exn :=
  match names with
  | [] => None
  | name :: names' =>
      match component_error name with
      | Some e => Some e
      | None =>
          if (4095 <? len + fs_length name)%N then Some OSError
          else scan_components (len + fs_length name + 1)%N names'
      end
  end.

(** The error of a path that the system cannot name, whatever is stored. *)
Definition path_error (path : string) : option exn :=
  scan_components 0 (components path).

(** [os.path.exists(path)] *)
Definition os_path_exists (path : string) : M bool :=
  λ w, (Ret (bool_decide (is_Some (files w !! path))), w).

(** [os.makedirs(path, exist_ok=True)]: it raises when the path cannot be
    named and when something that is not a directory is in the way.
    Directories themselves are not recorded in the world. *)
Definition os_makedirs (path : string) : M unit :=
  λ w, match path_error path with
       | Some e => (Raise e, w)
       | None =>
           if existsb (λ p, bool_decide (is_Some (files w !! p))) (prefixes path)
           then (Raise OSError, w)
           else (Ret tt, w)
       end.

(** [with open(path, "r") as file: json.load(file)] *)
Definition json_load (path : string) : M pyval :=
  λ w, match files w !! path with
       | None => (Raise FileNotFoundError, w)
       | Some Garbled | Some (Fragile None) => (Raise JSONDecodeError, w)
       | Some (Json doc) | Some (Fragile (Some doc)) => (Ret doc, w)
       | Some Blocked => (Raise OSError, w)
       end.

(** A text that UTF-8 can encode: no lone surrogate. *)
Definition utf8_ok (s : string) : bool :=
  forallb (λ c, negb (is_surrogate c)) (split_chars s).

(** A document that [json.dump] with [ensure_ascii=False] can write to a
    UTF-8 file. *)
Fixpoint encodable (v : pyval) : bool :=
  match v with
  | PStr s => utf8_ok s
  | PList items => forallb encodable items
  | PDict entries => forallb (λ kv, utf8_ok (fst kv) && encodable (snd kv)) entries
  | _ => true
  end.

(** [with open(path, "w") as file: json.dump(doc, file, ...)], in a directory
    that is there.  When [open] raises, the file stays as it was.  Once it is
    open the file is empty, and [json.dump] writes the document piece by
    piece: when a piece cannot be encoded, or the device fails, what is left
    is the beginning of an array, which [json.load] rejects. *)
Definition json_dump (doc : pyval) (path : string) : M unit :=
  λ w, match path_error path with
       | Some e => (Raise e, w)
       | None =>
           match files w !! path with
           | Some Blocked => (Raise OSError, w)
           | Some (Fragile _) =>
               (Raise OSError, World (<[path := Fragile None]> (files w)) (trace w))
           | _ =>
               if encodable doc
               then (Ret tt, World (<[path := Json doc]> (files w)) (trace w))
               else (Raise ValueError, World (<[path := Garbled]> (files w)) (trace w))
           end
       end.

(** ** The event the host hands to the plugin *)

(** [event.message_obj]: the raw platform payload and the group the message
    belongs to (the empty string when the attribute is not there). *)
Record AstrBotMessage := {
  raw_message : pyval;
  group_id : string
}.

Record AstrMessageEvent := {
  message_obj : option AstrBotMessage;
  get_platform_name : string;
  (** [isinstance(event, AiocqhttpMessageEvent)] *)
  is_aiocqhttp : bool;
  (** the answer of the protocol end to [event.bot.api.call_action] *)
  remote : string → list (string * pyval) → res unit
}.

Definition call_action (event : AstrMessageEvent) (action : string)
    (payload : list (string * pyval)) : M unit :=
  λ w, (remote event action payload,
        World (files w) (trace w ++ [CallAction action payload])).

Definition plain_result (message : string) : effect := Yield message.

(** ** The plugin *)

Record QQBanPlugin := {
  enforce_whitelist : pyval;
  group_whitelist : gset string;
  notice_enabled : pyval;
  auto_approve_enabled : pyval;
  reject_reason : pyval;
  leave_notice_template : pyval
}.

Definition DATA_DIR : string :=
  path_join (path_join "data" "plugins") "astrbot_plugin_qq_ban".

(** [QQBanPlugin.__init__]: [config] is [None] or the configuration
    mapping. *)
Definition __init__ (config : option (list (string * pyval))) : M QQBanPlugin :=
  (* [config or AstrBotConfig({})]: without a configuration, or with an
     empty one, [AstrBotConfig] is built from [{}]; it takes the path of a
     file there and raises [TypeError] on a mapping *)
  let! config :=
    match config with
    | Some (entry :: entries) => ret (entry :: entries)
    | _ => raise TypeError
    end in
  let enforce := dict_get config "enable_group_whitelist" (PBool true) in
  let! gids := lift (iter (dict_get config "group_whitelist" (PList []))) in
  let whitelist : gset string :=
    list_to_set (map (λ gid, strip (str gid)) (List.filter truthy gids)) in
  let notice := dict_get config "enable_blacklist_notice" (PBool true) in
  let auto_approve := dict_get config "enable_auto_approve" (PBool false) in
  let reason :=
    or_else (dict_get config "reject_reason" PNone) (PStr "黑名单成员，拒绝加入。") in
  let template :=
    or_else (dict_get config "leave_notice_template" PNone)
            (PStr "成员 {member} 已退出群聊，并被加入黑名单。") in
  os_makedirs DATA_DIR;;
  ret {| enforce_whitelist := enforce;
         group_whitelist := whitelist;
         notice_enabled := notice;
         auto_approve_enabled := auto_approve;
         reject_reason := reason;
         leave_notice_template := template |}.

Definition _group_dir (group_id : string) : string :=
  path_join DATA_DIR group_id.

Definition _blacklist_file (group_id : string) : string :=
  path_join (_group_dir group_id) "blacklist.json".

Definition _load_blacklist (group_id : string) : M (gset string) :=
  let path := _blacklist_file group_id in
  let! found := os_path_exists path in
  if negb found then ret ∅
  else
    try_except
      (let! data := json_load path in
       let! uids := lift (iter data) in
       ret (list_to_set (map str uids)))
      (λ exc, ret ∅).

Definition _save_blacklist (group_id : string) (members : gset string) : M unit :=
  os_makedirs (_group_dir group_id);;
  let path := _blacklist_file group_id in
  try_except
    (let uids : gset string := set_map (λ uid, str (PStr uid)) members in
     json_dump (PList (map PStr (sorted (elements uids)))) path)
    (λ exc, ret tt).

Definition _add_to_blacklist (group_id user_id : string) : M bool :=
  let! members := _load_blacklist group_id in
  if bool_decide (user_id ∈ members) then ret false
  else
    let members := members ∪ {[user_id]} in
    _save_blacklist group_id members;;
    ret true.

Definition _in_blacklist (group_id user_id : string) : M bool :=
  let! members := _load_blacklist group_id in
  ret (bool_decide (user_id ∈ members)).

Definition _format_member (user_id : string) : string :=
  if isdigit user_id then "[CQ:at,qq=" +:+ user_id +:+ "]" else user_id.

Definition _extract_raw_payload (event : AstrMessageEvent)
  : option (list (string * pyval)) :=
  match message_obj event with
  | None => None
  | Some message =>
      match raw_message message with
      | PDict raw => Some raw
      | _ => None
      end
  end.

(** [getattr(event.message_obj, "group_id", "")] *)
Definition message_group_id (event : AstrMessageEvent) : string :=
  match message_obj event with
  | Some message => group_id message
  | None => ""
  end.

Section Plugin.

(** The module global [AiocqhttpMessageEvent] is a class when the optional
    import succeeds and [None] when it fails. *)
Variable aiocqhttp_imported : bool.

(** [str.format] with [data] as keyword arguments: Python's format-string
    language. *)
Variable str_format : string → list (string * string) → res string.

Variable self : QQBanPlugin.

Definition _group_allowed (group_id : string) : bool :=
  if String.eqb group_id "" then false
  else if negb (truthy (enforce_whitelist self)) then true
  else bool_decide (group_id ∈ group_whitelist self).

(** [self.leave_notice_template.format] on [data]: only a [str] has the
    method. *)
Definition format_template (data : list (string * string)) : res string :=
  match leave_notice_template self with
  | PStr template => str_format template data
  | _ => Raise AttributeError
  end.

Definition _render_leave_notice (group_id user_id : string) : string :=
  let member := _format_member user_id in
  let data := [("member", member); ("user_id", user_id); ("group_id", group_id)] in
  match format_template data with
  | Ret message => message
  | Raise exc => "成员 " +:+ member +:+ " 已退出群聊，并被加入黑名单。"
  end.

Definition _process_group_request (event : AstrMessageEvent)
    (flag sub_type : pyval) (approve : bool) : M bool :=
  if negb (String.eqb (get_platform_name event) "aiocqhttp") || negb aiocqhttp_imported
  then ret false
  else if negb (is_aiocqhttp event) then ret false
  else
    let payload :=
      [("flag", flag); ("sub_type", sub_type); ("approve", PBool approve)] in
    let payload :=
      if negb approve then dict_set payload "reason" (reject_reason self)
      else payload in
    try_except
      (call_action event "set_group_add_request" payload;;
       ret true)
      (λ exc, ret false).

Definition _handle_group_decrease (event : AstrMessageEvent)
    (raw : list (string * pyval)) : M unit :=
  let group_id :=
    str (or_else (dict_get raw "group_id" PNone) (PStr (message_group_id event))) in
  let user_id := str (or_else (dict_get raw "user_id" PNone) (PStr "")) in
  if String.eqb group_id "" || String.eqb user_id "" then ret tt
  else if negb (_group_allowed group_id) then ret tt
  else
    let! added := _add_to_blacklist group_id user_id in
    if added && truthy (notice_enabled self) then
      let message := _render_leave_notice group_id user_id in
      emit (plain_result message)
    else ret tt.

Definition _handle_group_request (event : AstrMessageEvent)
    (raw : list (string * pyval)) : M unit :=
  let group_id :=
    str (or_else (dict_get raw "group_id" PNone) (PStr (message_group_id event))) in
  let user_id := str (or_else (dict_get raw "user_id" PNone) (PStr "")) in
  let flag := dict_get raw "flag" PNone in
  let sub_type := dict_get raw "sub_type" (PStr "add") in
  if negb (negb (String.eqb group_id "") && negb (String.eqb user_id "") && truthy flag)
  then ret tt
  else if negb (_group_allowed group_id) then ret tt
  else
    let! listed := _in_blacklist group_id user_id in
    if listed then
      _process_group_request event flag sub_type false;;
      if truthy (notice_enabled self) then
        emit (plain_result
                ("检测到黑名单成员 " +:+ _format_member user_id +:+ " 申请入群，已自动拒绝。"))
      else ret tt
    else if truthy (auto_approve_enabled self) then
      let! success := _process_group_request event flag sub_type true in
      if success && truthy (notice_enabled self) then
        emit (plain_result
                ("成员 " +:+ _format_member user_id +:+ " 的入群申请已自动同意。"))
      else ret tt
    else ret tt.

Definition handle_group_events (event : AstrMessageEvent) : M unit :=
  match _extract_raw_payload event with
  | None | Some [] => ret tt
  | Some raw =>
      let post_type := dict_get raw "post_type" PNone in
      if eq_str post_type "notice"
         && eq_str (dict_get raw "notice_type" PNone) "group_decrease"
      then _handle_group_decrease event raw
      else if eq_str post_type "request"
              && eq_str (dict_get raw "request_type" PNone) "group"
      then _handle_group_request event raw
      else ret tt
  end.

(** [terminate] only writes to the log. *)
Definition terminate : M unit := ret tt.

End Plugin.

(** The persisted blacklist set of a group: what [_load_blacklist] reads. *)
Definition blacklist (w : world) (group_id : string) : gset string :=
  match _load_blacklist group_id w with
  | (Ret members, _) => members
  | (Raise _, _) => ∅
  end.

(** The world after a computation, and its result. *)
Definition after {A} (m : M A) (w : world) : world := snd (m w).
Definition result {A} (m : M A) (w : world) : res A := fst (m w).


(** The dispatch tests of [handle_group_events]. *)
Definition is_leave (raw : list (string * pyval)) : bool :=
  eq_str (dict_get raw "post_type" PNone) "notice"
  && eq_str (dict_get raw "notice_type" PNone) "group_decrease".

Definition is_join_request (raw : list (string * pyval)) : bool :=
  eq_str (dict_get raw "post_type" PNone) "request"
  && eq_str (dict_get raw "request_type" PNone) "group".

(** The fields the two handlers read from the payload. *)
Definition event_group_id (event : AstrMessageEvent) (raw : list (string * pyval)) : string :=
  str (or_else (dict_get raw "group_id" PNone) (PStr (message_group_id event))).

Definition event_user_id (raw : list (string * pyval)) : string :=
  str (or_else (dict_get raw "user_id" PNone) (PStr "")).

(** A required field is missing: no user id, no group id in the payload and
    none on the enclosing message, or, for a join request, no flag. *)
Definition missing_required (event : AstrMessageEvent) (raw : list (string * pyval)) : bool :=
  negb (truthy (dict_get raw "user_id" PNone))
  || negb (truthy (dict_get raw "group_id" PNone)) && String.eqb (message_group_id event) ""
  || is_join_request raw && negb (truthy (dict_get raw "flag" PNone)).

(** The platform lets [_process_group_request] reach the protocol client. *)
Definition supported (aiocqhttp_imported : bool) (event : AstrMessageEvent) : bool :=
  String.eqb (get_platform_name event) "aiocqhttp" && aiocqhttp_imported
  && is_aiocqhttp event.

Definition succeeded (r : res unit) : bool :=
  match r with
  | Ret _ => true
  | Raise _ => false
  end.

(** The plugin [__init__] builds from a configuration whose allow-list
    iterates as [gids]. *)
Definition configured (cfg : list (string * pyval)) (gids : list pyval) : QQBanPlugin :=
  {| enforce_whitelist := dict_get cfg "enable_group_whitelist" (PBool true);
     group_whitelist :=
       list_to_set (map (λ gid, strip (str gid)) (List.filter truthy gids));
     notice_enabled := dict_get cfg "enable_blacklist_notice" (PBool true);
     auto_approve_enabled := dict_get cfg "enable_auto_approve" (PBool false);
     reject_reason :=
       or_else (dict_get cfg "reject_reason" PNone) (PStr "黑名单成员，拒绝加入。");
     leave_notice_template :=
       or_else (dict_get cfg "leave_notice_template" PNone)
               (PStr "成员 {member} 已退出群聊，并被加入黑名单。") |}.

(** The document a path can be read as, and the blacklist it stands for. *)
Definition readable (content : option fcontent) : option pyval :=
  match content with
  | Some (Json doc) | Some (Fragile (Some doc)) => Some doc
  | _ => None
  end.

Definition members_of (content : option fcontent) : gset string :=
  match readable content with
  | Some doc =>
      match iter doc with
      | Ret uids => list_to_set (map str uids)
      | Raise _ => ∅
      end
  | None => ∅
  end.

(** The document [_save_blacklist] writes for a set of members. *)
Definition saved_doc (members : gset string) : pyval :=
  PList (map PStr (sorted (elements members))).


(** ** Sample configurations, events and stores *)

(** [str.format] with keyword arguments, on the templates made of text,
    doubled braces and replacement fields that are a plain name, as
    ["{member}"].  A field opens at a brace and runs to the next closing
    brace; a name that is not a key raises ([KeyError] here, where Python
    raises [IndexError] for an empty name or a number), and so does a brace
    that is neither doubled nor part of a field.  A field with a conversion, a
    format specification, an attribute or an index is outside this fragment
    and is refused here, which Python does not always do. *)
Fixpoint format_lookup (name : string) (data : list (string * string)) : option string :=
  match data with
  | [] => None
  | (key, value) :: data' =>
      if String.eqb key name then Some value else format_lookup name data'
  end.

Definition field_value (name : string) (data : list (string * string)) : res string :=
  if existsb (λ c, contains_char c name) ["!"; ":"; "."; "["]%char then Raise ValueError
  else match format_lookup name data with
       | Some value => Ret value
       | None => Raise KeyError
       end.

Inductive format_state : Type :=
  | InText
  | AfterClose
  | InField (name : string).

Definition then_text (head : res string) (tail : res string) : res string :=
  match head with
  | Ret a => match tail with
             | Ret b => Ret (a +:+ b)
             | Raise e => Raise e
             end
  | Raise e => Raise e
  end.

(** The name of a field is gathered back to front. *)
Fixpoint format_go (data : list (string * string)) (state : format_state)
    (template : string) : res string :=
  match template with
  | EmptyString =>
      match state with
      | InText => Ret ""
      | _ => Raise ValueError
      end
  | String c rest =>
      match state with
      | InText =>
          if Ascii.eqb c "{" then format_go data (InField "") rest
          else if Ascii.eqb c "}" then format_go data AfterClose rest
          else then_text (Ret (String c "")) (format_go data InText rest)
      | AfterClose =>
          if Ascii.eqb c "}" then then_text (Ret "}") (format_go data InText rest)
          else Raise ValueError
      | InField name =>
          if Ascii.eqb c "{"
          then if String.eqb name ""
               then then_text (Ret "{") (format_go data InText rest)
               else Raise ValueError
          else if Ascii.eqb c "}"
          then then_text (field_value (String.rev name) data) (format_go data InText rest)
          else format_go data (InField (String c name)) rest
      end
  end.

Definition format_names (template : string) (data : list (string * string)) : res string :=
  format_go data InText template.

Definition empty_world : world := World ∅ [].

(** The default configuration with one allowed group. *)
Definition config_123 : list (string * pyval) :=
  [("group_whitelist", PList [PStr " 123 "])].

Definition plugin_123 : QQBanPlugin :=
  {| enforce_whitelist := PBool true;
     group_whitelist := {["123"]};
     notice_enabled := PBool true;
     auto_approve_enabled := PBool false;
     reject_reason := PStr "黑名单成员，拒绝加入。";
     leave_notice_template := PStr "成员 {member} 已退出群聊，并被加入黑名单。" |}.

(** Enforcement on, nothing allowed. *)
Definition plugin_closed : QQBanPlugin :=
  {| enforce_whitelist := PBool true;
     group_whitelist := ∅;
     notice_enabled := PBool true;
     auto_approve_enabled := PBool true;
     reject_reason := PStr "黑名单成员，拒绝加入。";
     leave_notice_template := PStr "成员 {member} 已退出群聊，并被加入黑名单。" |}.

(** Enforcement off, notices and automatic approval on. *)
Definition plugin_open : QQBanPlugin :=
  {| enforce_whitelist := PBool false;
     group_whitelist := ∅;
     notice_enabled := PBool true;
     auto_approve_enabled := PBool true;
     reject_reason := PStr "no";
     leave_notice_template := PStr "left" |}.

Definition event_of (raw : list (string * pyval)) (message_group : string)
    (answer : res unit) : AstrMessageEvent :=
  {| message_obj := Some {| raw_message := PDict raw; group_id := message_group |};
     get_platform_name := "aiocqhttp";
     is_aiocqhttp := true;
     remote := λ _ _, answer |}.

Definition leave_raw : list (string * pyval) :=
  [("post_type", PStr "notice"); ("notice_type", PStr "group_decrease");
   ("group_id", PInt 123); ("user_id", PInt 42)].

Definition request_raw : list (string * pyval) :=
  [("post_type", PStr "request"); ("request_type", PStr "group");
   ("sub_type", PStr "add"); ("group_id", PInt 123); ("user_id", PInt 42);
   ("flag", PStr "f1")].

(** A join request whose payload has no group id. *)
Definition request_raw_no_group : list (string * pyval) :=
  [("post_type", PStr "request"); ("request_type", PStr "group");
   ("sub_type", PStr "add"); ("user_id", PInt 42); ("flag", PStr "f1")].

(** A join request whose payload has no user id. *)
Definition request_raw_no_user : list (string * pyval) :=
  [("post_type", PStr "request"); ("request_type", PStr "group");
   ("sub_type", PStr "add"); ("group_id", PInt 123); ("flag", PStr "f1")].

(** A store in which user 42 is on the blacklist of group 123. *)
Definition world_42_listed : world :=
  World {[ _blacklist_file "123" := Json (PList [PStr "42"]) ]} [].

(** Sample events: each is delivered on the supported platform. *)
Definition leave_event : AstrMessageEvent := event_of leave_raw "" (Ret tt).

Definition answered_request : AstrMessageEvent := event_of request_raw "" (Ret tt).

Definition refused_request : AstrMessageEvent :=
  event_of request_raw "" (Raise ActionFailed).

Definition fallback_request : AstrMessageEvent :=
  event_of request_raw_no_group "123" (Ret tt).

Definition no_user_request : AstrMessageEvent :=
  event_of request_raw_no_user "123" (Ret tt).

Definition reject_call : effect :=
  CallAction "set_group_add_request"
    [("flag", PStr "f1"); ("sub_type", PStr "add"); ("approve", PBool false);
     ("reason", PStr "no")].

Definition approve_call : effect :=
  CallAction "set_group_add_request"
    [("flag", PStr "f1"); ("sub_type", PStr "add"); ("approve", PBool true)].

(** A leave notice whose payload has no group id, inside a message of
    group 123. *)
Definition leave_raw_no_group : list (string * pyval) :=
  [("post_type", PStr "notice"); ("notice_type", PStr "group_decrease");
   ("user_id", PInt 42)].

Definition fallback_leave : AstrMessageEvent :=
  event_of leave_raw_no_group "123" (Ret tt).

(** A configuration that names no group. *)
Definition config_no_groups : list (string * pyval) :=
  [("enable_auto_approve", PBool true)].

(** The plugin [__init__] builds from it. *)
Definition plugin_no_groups : QQBanPlugin :=
  {| enforce_whitelist := PBool true;
     group_whitelist := ∅;
     notice_enabled := PBool true;
     auto_approve_enabled := PBool true;
     reject_reason := PStr "黑名单成员，拒绝加入。";
     leave_notice_template := PStr "成员 {member} 已退出群聊，并被加入黑名单。" |}.

(** Identifiers that cannot be stored: the lone surrogate U+D800, which no
    UTF-8 file can hold; a text with a NUL, which no path can hold; a name
    of 256 bytes, one more than a directory entry can have. *)
Definition lone_surrogate : string := of_bytes [237; 160; 128]%N.

Definition nul_id : string := of_bytes [49; 0; 50]%N.

Definition long_id : string := of_bytes (repeat 49%N 256).

(** A store in which the blacklist file of group 123 holds user 7 and sits
    on a device that fails during a write. *)
Definition world_fragile : world :=
  World {[ _blacklist_file "123" := Fragile (Some (PList [PStr "7"])) ]} [].


(** ** Shapes of identifiers *)

(** The text has no path separator. *)
Definition slash_free (s : string) : bool := negb (contains_char "/" s).

Definition starts_with_space (s : string) : bool :=
  match s with
  | String c _ => ascii_space c
  | EmptyString => false
  end.

Definition ends_with_space (s : string) : bool := starts_with_space (String.rev s).

(** The shape of one character: a byte, and continuation bytes after it
    only when that byte is a lead byte. *)
Fixpoint all_cont (s : string) : bool :=
  match s with
  | EmptyString => true
  | String b s' => is_cont b && all_cont s'
  end.

Definition is_lead (c : string) : bool :=
  match c with
  | String b _ => (192 <=? N_of_ascii b)%N
  | EmptyString => false
  end.

Definition wf_char (c : string) : Prop :=
  match c with
  | EmptyString => False
  | String b r => all_cont r = true ∧ (r ≠ "" → is_lead c = true)
  end.

Definition starts_with (c : ascii) (s : string) : bool :=
  match s with
  | String a _ => Ascii.eqb a c
  | EmptyString => false
  end.

(** A payload that is neither a leave notice nor a join request. *)
Definition message_raw : list (string * pyval) :=
  [("post_type", PStr "message"); ("message_type", PStr "group");
   ("group_id", PInt 123); ("user_id", PInt 42)].

Definition message_event : AstrMessageEvent := event_of message_raw "123" (Ret tt).

(** Enforcement off, automatic approval off. *)
Definition plugin_manual : QQBanPlugin :=
  {| enforce_whitelist := PBool false;
     group_whitelist := ∅;
     notice_enabled := PBool true;
     auto_approve_enabled := PBool false;
     reject_reason := PStr "no";
     leave_notice_template := PStr "left" |}.

(** A store whose file for group 123 holds a number, not an array. *)
Definition world_number_file : world :=
  World {[ _blacklist_file "123" := Json (PInt 7) ]} [].

(** A store whose file for group 123 was edited by hand: a number and a
    string. *)
Definition world_edited_file : world :=
  World {[ _blacklist_file "123" := Json (PList [PInt 42; PStr "x7"]) ]} [].

(** * Properties *)

(** ** The blacklist store *)

Lemma set_map_str (members : gset string) :
  set_map (C := gset string) (D := gset string) (λ uid, str (PStr uid)) members = members.
Proof.
  apply set_eq. intros x. rewrite elem_of_map. simpl. split.
  - by intros (uid & -> & Huid).
  - intros Hx. by exists x.
Qed.




Lemma load_run (group_id : string) (w : world) :
  _load_blacklist group_id w
    = (Ret (members_of (files w !! _blacklist_file group_id)), w).
Proof.
  unfold _load_blacklist, bind, try_except, os_path_exists, json_load, lift, ret,
    members_of, readable.
  cbv beta iota zeta.
  destruct (files w !! _blacklist_file group_id) as [content|] eqn:Hfile;
    simpl; rewrite ?Hfile; [|done].
  destruct content as [|doc| |[doc|]]; try done; by destruct (iter doc).
Qed.

Lemma blacklist_lookup (w : world) (group_id : string) :
  blacklist w group_id = members_of (files w !! _blacklist_file group_id).
Proof. unfold blacklist. by rewrite load_run. Qed.

Lemma load_total (group_id : string) (w : world) :
  _load_blacklist group_id w = (Ret (blacklist w group_id), w).
Proof. by rewrite blacklist_lookup, load_run. Qed.


Lemma makedirs_run (path : string) (w : world) :
  os_makedirs path w = (result (os_makedirs path) w, w).
Proof.
  unfold result, os_makedirs.
  destruct (path_error path); [done|]. by destruct (existsb _ _).
Qed.


Lemma dump_trace (doc : pyval) (path : string) (w : world) :
  ∃ r fs, json_dump doc path w = (r, World fs (trace w)).
Proof.
  unfold json_dump.
  destruct (path_error path); [by destruct w; eauto|].
  destruct (files w !! path) as [[| | |]|]; try destruct (encodable doc);
    try (by eauto); by destruct w; eauto.
Qed.

Lemma save_unfold (group_id : string) (members : gset string) (w : world) :
  _save_blacklist group_id members w =
    match result (os_makedirs (_group_dir group_id)) w with
    | Ret _ =>
        try_except (json_dump (saved_doc members) (_blacklist_file group_id))
                   (λ _, ret tt) w
    | Raise e => (Raise e, w)
    end.
Proof.
  unfold _save_blacklist, bind. rewrite makedirs_run.
  destruct (result _ w); [|done]. by rewrite set_map_str.
Qed.


(** Whatever happens to the file, [_save_blacklist] yields nothing and
    calls nobody. *)
Lemma save_trace (group_id : string) (members : gset string) (w : world) :
  ∃ r fs, _save_blacklist group_id members w = (r, World fs (trace w)).
Proof.
  rewrite save_unfold. destruct (result (os_makedirs _) w); [|by destruct w; eauto].
  unfold try_except, ret.
  destruct (dump_trace (saved_doc members) (_blacklist_file group_id) w)
    as (r & fs & ->).
  destruct r; eauto.
Qed.


Lemma add_run (group_id user_id : string) (w : world) :
  _add_to_blacklist group_id user_id w =
    if bool_decide (user_id ∈ blacklist w group_id) then (Ret false, w)
    else
      match _save_blacklist group_id (blacklist w group_id ∪ {[user_id]}) w with
      | (Ret _, w') => (Ret true, w')
      | (Raise e, w') => (Raise e, w')
      end.
Proof.
  unfold _add_to_blacklist, bind at 1. rewrite load_total.
  case_bool_decide; [done|].
  unfold bind, ret. by destruct (_save_blacklist _ _ w) as [[] ?].
Qed.





(** C8. Loading a group's blacklist returns the empty set when the file is
    not there and when its contents cannot be parsed, and it never raises:
    on every store it returns a set and leaves the world as it was. *)
Theorem load_missing_or_unparsable (group_id : string) (w : world) :
  result (_load_blacklist group_id)
         (World (delete (_blacklist_file group_id) (files w)) (trace w)) = Ret ∅ ∧
  result (_load_blacklist group_id)
         (World (<[_blacklist_file group_id := Garbled]> (files w)) (trace w)) = Ret ∅ ∧
  ∃ members : gset string, _load_blacklist group_id w = (Ret members, w).
Proof.
  unfold result. rewrite !load_total, !blacklist_lookup. simpl.
  rewrite lookup_delete_eq, lookup_insert_eq. eauto.
Qed.

(** ** The group scope check *)

Lemma init_unfold (config : option (list (string * pyval))) (w : world) :
  __init__ config w =
    match config with
    | Some (entry :: entries) =>
        let cfg := entry :: entries in
        match iter (dict_get cfg "group_whitelist" (PList [])) with
        | Ret gids =>
            match result (os_makedirs DATA_DIR) w with
            | Ret _ => (Ret (configured cfg gids), w)
            | Raise e => (Raise e, w)
            end
        | Raise e => (Raise e, w)
        end
    | _ => (Raise TypeError, w)
    end.
Proof.
  unfold __init__, bind, lift, raise, ret. cbv beta iota zeta.
  destruct config as [[|entry entries]|]; try done.
  destruct (iter _) as [gids|e]; [|done].
  rewrite makedirs_run. by destruct (result _ w).
Qed.

Lemma init_run (config : option (list (string * pyval))) (w : world) (p : QQBanPlugin) :
  result (__init__ config) w = Ret p →
  let cfg := from_option id [] config in
  ∃ gids,
    iter (dict_get cfg "group_whitelist" (PList [])) = Ret gids ∧
    enforce_whitelist p = dict_get cfg "enable_group_whitelist" (PBool true) ∧
    group_whitelist p =
      list_to_set (map (λ gid, strip (str gid)) (List.filter truthy gids)).
Proof.
  unfold result. rewrite init_unfold.
  destruct config as [[|entry entries]|]; try done. simpl.
  destruct (iter _) as [gids|e]; [|done].
  destruct (result _ w); [|done]. simpl.
  intros [= <-]. by exists gids.
Qed.

(** C9 (amended). The check fails for the empty group id, passes for every
    other id when enforcement is off, and otherwise passes exactly for the ids
    equal to a configured entry once that entry is turned into text and
    trimmed; the id of the event is compared as it is. *)
Theorem group_allowed_scope (config : option (list (string * pyval)))
    (w : world) (p : QQBanPlugin) (g : string) :
  result (__init__ config) w = Ret p →
  let cfg := from_option id [] config in
  ∃ gids,
    iter (dict_get cfg "group_whitelist" (PList [])) = Ret gids ∧
    _group_allowed p g =
      if String.eqb g "" then false
      else if negb (truthy (dict_get cfg "enable_group_whitelist" (PBool true))) then true
      else bool_decide (Exists (λ gid, truthy gid = true ∧ strip (str gid) = g) gids).
Proof.
  intros Hinit. destruct (init_run _ _ _ Hinit) as (gids & Hiter & Henf & Hwl).
  exists gids. split; [done|].
  unfold _group_allowed. rewrite Henf, Hwl.
  destruct (String.eqb g ""); [done|].
  destruct (negb _); [done|].
  apply bool_decide_ext.
  rewrite elem_of_list_to_set, list_elem_of_In, in_map_iff, Exists_exists.
  split.
  - intros (gid & <- & Hin). apply filter_In in Hin as [Hin Ht].
    exists gid. by rewrite list_elem_of_In.
  - intros (gid & Hin & Ht & <-). exists gid. split; [done|].
    apply filter_In. by rewrite <- list_elem_of_In.
Qed.

(** ** The handlers *)

Section Handlers.

Context (imported : bool) (fmt : string → list (string * string) → res string)
        (self : QQBanPlugin).

Lemma join_request_not_leave (raw : list (string * pyval)) :
  is_join_request raw = true → is_leave raw = false.
Proof.
  unfold is_join_request, is_leave.
  destruct (dict_get raw "post_type" PNone) as [| | |s| |]; simpl; try done.
  intros [Hs _]%andb_true_iff. apply String.eqb_eq in Hs as ->. done.
Qed.

Lemma dispatch_leave (event : AstrMessageEvent) (raw : list (string * pyval)) :
  _extract_raw_payload event = Some raw →
  is_leave raw = true →
  handle_group_events imported fmt self event = _handle_group_decrease fmt self event raw.
Proof.
  intros Hraw Hleave. unfold handle_group_events. rewrite Hraw.
  destruct raw as [|kv raw]; [done|].
  fold (is_leave (kv :: raw)). by rewrite Hleave.
Qed.

Lemma dispatch_join_request (event : AstrMessageEvent) (raw : list (string * pyval)) :
  _extract_raw_payload event = Some raw →
  is_join_request raw = true →
  handle_group_events imported fmt self event = _handle_group_request imported self event raw.
Proof.
  intros Hraw Hreq. unfold handle_group_events. rewrite Hraw.
  destruct raw as [|kv raw]; [done|].
  fold (is_leave (kv :: raw)). fold (is_join_request (kv :: raw)).
  by rewrite (join_request_not_leave _ Hreq), Hreq.
Qed.

Lemma dispatch_cases (event : AstrMessageEvent) :
  handle_group_events imported fmt self event = ret tt
  ∨ ∃ raw, _extract_raw_payload event = Some raw ∧
      (is_leave raw = true ∧
         handle_group_events imported fmt self event
           = _handle_group_decrease fmt self event raw
       ∨ is_join_request raw = true ∧
         handle_group_events imported fmt self event
           = _handle_group_request imported self event raw).
Proof.
  destruct (_extract_raw_payload event) as [raw|] eqn:Hraw.
  - destruct (is_leave raw) eqn:Hleave.
    { right. exists raw. split; [done|]. left. split; [done|]. by apply dispatch_leave. }
    destruct (is_join_request raw) eqn:Hreq.
    { right. exists raw. split; [done|]. right. split; [done|].
      by apply dispatch_join_request. }
    left. unfold handle_group_events. rewrite Hraw.
    destruct raw as [|kv raw]; [done|].
    fold (is_leave (kv :: raw)). fold (is_join_request (kv :: raw)).
    by rewrite Hleave, Hreq.
  - left. unfold handle_group_events. by rewrite Hraw.
Qed.

Lemma leave_dropped (event : AstrMessageEvent) (raw : list (string * pyval)) (w : world) :
  String.eqb (event_group_id event raw) "" || String.eqb (event_user_id raw) "" = true
  ∨ _group_allowed self (event_group_id event raw) = false →
  _handle_group_decrease fmt self event raw w = (Ret tt, w).
Proof.
  unfold _handle_group_decrease. fold (event_group_id event raw) (event_user_id raw).
  intros [-> | Hallowed]; [done|].
  destruct (_ || _); [done|]. by rewrite Hallowed.
Qed.

Lemma join_request_dropped (event : AstrMessageEvent) (raw : list (string * pyval))
    (w : world) :
  negb (String.eqb (event_group_id event raw) "")
    && negb (String.eqb (event_user_id raw) "")
    && truthy (dict_get raw "flag" PNone) = false
  ∨ _group_allowed self (event_group_id event raw) = false →
  _handle_group_request imported self event raw w = (Ret tt, w).
Proof.
  unfold _handle_group_request. fold (event_group_id event raw) (event_user_id raw).
  intros [-> | Hallowed]; [done|].
  destruct (negb (_ && _)); [done|]. by rewrite Hallowed.
Qed.

(** C5. With allow-list enforcement on and an empty allow-list, handling an
    event, whatever it is and whatever group it names, returns without
    raising and leaves the world as it was: no blacklist file is written,
    no message is yielded and the protocol client is not called. *)
Theorem closed_allow_list_no_effect (event : AstrMessageEvent) (w : world) :
  truthy (enforce_whitelist self) = true →
  group_whitelist self = ∅ →
  handle_group_events imported fmt self event w = (Ret tt, w).
Proof.
  intros Henf Hempty.
  assert (Hallowed : ∀ g, _group_allowed self g = false).
  { intros g. unfold _group_allowed. rewrite Henf, Hempty.
    destruct (String.eqb g ""); [done|]. simpl.
    by rewrite bool_decide_eq_false_2 by apply not_elem_of_empty. }
  destruct (dispatch_cases event) as [-> | (raw & _ & [[_ ->] | [_ ->]])]; [done|..].
  - apply leave_dropped. right. apply Hallowed.
  - apply join_request_dropped. right. apply Hallowed.
Qed.

Lemma or_else_falsy (a : pyval) (s : string) :
  truthy a = false → str (or_else a (PStr s)) = s.
Proof. unfold or_else. by intros ->. Qed.

(** C6 (amended). An event whose payload lacks a required field (the user
    id, the group id when the enclosing message has none either, or the flag
    of a join request) is dropped: handling returns without raising and leaves the
    world as it was, so no blacklist file is written, no message is yielded
    and the protocol client is not called. *)
Theorem malformed_payload_dropped (event : AstrMessageEvent)
    (raw : list (string * pyval)) (w : world) :
  _extract_raw_payload event = Some raw →
  missing_required event raw = true →
  handle_group_events imported fmt self event w = (Ret tt, w).
Proof.
  intros Hraw Hmiss.
  destruct (dispatch_cases event) as [-> | (raw' & Hraw' & Hcase)]; [done|].
  rewrite Hraw in Hraw'. injection Hraw' as <-.
  unfold missing_required in Hmiss.
  apply orb_true_iff in Hmiss as [[Huser | Hgroup]%orb_true_iff | Hflag].
  - apply negb_true_iff in Huser.
    assert (String.eqb (event_user_id raw) "" = true) as Hu.
    { unfold event_user_id. by rewrite (or_else_falsy _ _ Huser). }
    destruct Hcase as [[_ ->] | [_ ->]].
    + apply leave_dropped. left. rewrite Hu. apply orb_true_r.
    + apply join_request_dropped. left. rewrite Hu. simpl. by rewrite andb_false_r.
  - apply andb_true_iff in Hgroup as [Hg%negb_true_iff Hm%String.eqb_eq].
    assert (String.eqb (event_group_id event raw) "" = true) as Hu.
    { unfold event_group_id. by rewrite (or_else_falsy _ _ Hg), Hm. }
    destruct Hcase as [[_ ->] | [_ ->]].
    + apply leave_dropped. left. by rewrite Hu.
    + apply join_request_dropped. left. by rewrite Hu.
  - apply andb_true_iff in Hflag as [Hreq Hflag%negb_true_iff].
    destruct Hcase as [[Hleave _] | [_ ->]].
    + by rewrite (join_request_not_leave _ Hreq) in Hleave.
    + apply join_request_dropped. left. rewrite Hflag. apply andb_false_r.
Qed.

Lemma process_run (event : AstrMessageEvent) (flag sub_type : pyval) (approve : bool)
    (w : world) :
  _process_group_request imported self event flag sub_type approve w =
    if supported imported event then
      let payload :=
        ([("flag", flag); ("sub_type", sub_type); ("approve", PBool approve)]
         ++ (if approve then [] else [("reason", reject_reason self)]))%list in
      (Ret (succeeded (remote event "set_group_add_request" payload)),
       World (files w) (trace w ++ [CallAction "set_group_add_request" payload]))
    else (Ret false, w).
Proof.
  unfold _process_group_request, supported.
  destruct (String.eqb _ "aiocqhttp"), imported, (is_aiocqhttp event); simpl; try done.
  unfold try_except, bind, call_action, ret.
  destruct approve; simpl; by destruct (remote event _ _).
Qed.

Lemma in_blacklist_run (g u : string) (w : world) :
  _in_blacklist g u w = (Ret (bool_decide (u ∈ blacklist w g)), w).
Proof. unfold _in_blacklist, bind. by rewrite load_total. Qed.

(** What [_handle_group_request] does once the payload has its fields and
    the group is in scope. *)
Lemma join_request_run (event : AstrMessageEvent) (raw : list (string * pyval))
    (w : world) :
  negb (String.eqb (event_group_id event raw) "")
    && negb (String.eqb (event_user_id raw) "")
    && truthy (dict_get raw "flag" PNone) = true →
  _group_allowed self (event_group_id event raw) = true →
  let flag := dict_get raw "flag" PNone in
  let sub_type := dict_get raw "sub_type" (PStr "add") in
  let member := _format_member (event_user_id raw) in
  _handle_group_request imported self event raw w =
    if bool_decide (event_user_id raw ∈ blacklist w (event_group_id event raw)) then
      (_process_group_request imported self event flag sub_type false;;
       if truthy (notice_enabled self) then
         emit (Yield ("检测到黑名单成员 " +:+ member +:+ " 申请入群，已自动拒绝。"))
       else ret tt) w
    else if truthy (auto_approve_enabled self) then
      (let! success := _process_group_request imported self event flag sub_type true in
       if success && truthy (notice_enabled self) then
         emit (Yield ("成员 " +:+ member +:+ " 的入群申请已自动同意。"))
       else ret tt) w
    else (Ret tt, w).
Proof.
  intros Hfields Hallowed. simpl.
  unfold _handle_group_request. fold (event_group_id event raw) (event_user_id raw).
  rewrite Hfields, Hallowed. simpl.
  unfold bind at 1. rewrite in_blacklist_run.
  destruct (bool_decide _); [done|].
  by destruct (truthy (auto_approve_enabled self)).
Qed.

Lemma join_request_frame (event : AstrMessageEvent) (raw : list (string * pyval))
    (w : world) :
  ∃ effects,
    _handle_group_request imported self event raw w
      = (Ret tt, World (files w) (trace w ++ effects)).
Proof.
  destruct (negb (String.eqb (event_group_id event raw) "")
            && negb (String.eqb (event_user_id raw) "")
            && truthy (dict_get raw "flag" PNone)) eqn:Hfields;
    [|exists []; rewrite app_nil_r; destruct w; apply join_request_dropped; by left].
  destruct (_group_allowed self (event_group_id event raw)) eqn:Hallowed;
    [|exists []; rewrite app_nil_r; destruct w; apply join_request_dropped; by right].
  rewrite (join_request_run _ _ _ Hfields Hallowed).
  unfold bind, emit, ret. rewrite !process_run.
  destruct (bool_decide _), (supported imported event),
    (truthy (auto_approve_enabled self)), (truthy (notice_enabled self));
    simpl; rewrite ?andb_false_r; simpl;
    try destruct (succeeded _); simpl;
    rewrite <- ?app_assoc;
    try (eexists; reflexivity);
    exists []; rewrite app_nil_r; by destruct w.
Qed.

(** C10. Handling a join request never writes a blacklist file: whatever the
    request and whatever the outcome (rejected, approved, dropped or left
    alone), handling returns without raising, the file store is the same
    after as before, and so is the persisted blacklist of every group. *)
Theorem join_request_keeps_blacklists (event : AstrMessageEvent)
    (raw : list (string * pyval)) (w : world) :
  _extract_raw_payload event = Some raw →
  is_join_request raw = true →
  result (handle_group_events imported fmt self event) w = Ret tt ∧
  files (after (handle_group_events imported fmt self event) w) = files w ∧
  ∀ g, blacklist (after (handle_group_events imported fmt self event) w) g = blacklist w g.
Proof.
  intros Hraw Hreq. rewrite (dispatch_join_request _ _ Hraw Hreq).
  destruct (join_request_frame event raw w) as [effects Hrun].
  unfold result, after. rewrite Hrun. simpl. split; [done|]. split; [done|].
  intros g. by rewrite !blacklist_lookup.
Qed.

(** C2. A join request that has its fields, for a group that is in scope,
    from a user on that group's blacklist: the handler calls
    [_process_group_request] with [approve = False] and then, when notices
    are enabled, yields the rejection notice whatever that call returned.
    Where the platform is supported the call reaches the protocol client
    once, with the configured reject reason in the payload; the yielded
    notice does not depend on the answer of the protocol end. *)
Theorem blacklisted_join_request_rejected (event : AstrMessageEvent)
    (raw : list (string * pyval)) (w : world) :
  _extract_raw_payload event = Some raw →
  is_join_request raw = true →
  event_user_id raw ≠ "" →
  truthy (dict_get raw "flag" PNone) = true →
  _group_allowed self (event_group_id event raw) = true →
  event_user_id raw ∈ blacklist w (event_group_id event raw) →
  let flag := dict_get raw "flag" PNone in
  let sub_type := dict_get raw "sub_type" (PStr "add") in
  let payload :=
    [("flag", flag); ("sub_type", sub_type); ("approve", PBool false);
     ("reason", reject_reason self)] in
  let notice :=
    Yield ("检测到黑名单成员 " +:+ _format_member (event_user_id raw)
           +:+ " 申请入群，已自动拒绝。") in
  handle_group_events imported fmt self event w =
    (_process_group_request imported self event flag sub_type false;;
     if truthy (notice_enabled self) then emit notice else ret tt) w
  ∧ handle_group_events imported fmt self event w =
    (Ret tt,
     World (files w)
       (trace w
        ++ (if supported imported event
            then [CallAction "set_group_add_request" payload] else [])
        ++ (if truthy (notice_enabled self) then [notice] else []))).
Proof.
  intros Hraw Hreq Huser Hflag Hallowed Hin. simpl.
  rewrite (dispatch_join_request _ _ Hraw Hreq).
  assert (String.eqb (event_group_id event raw) "" = false) as Hg.
  { unfold _group_allowed in Hallowed. by destruct (String.eqb _ ""). }
  apply String.eqb_neq in Huser.
  assert (negb (String.eqb (event_group_id event raw) "")
          && negb (String.eqb (event_user_id raw) "")
          && truthy (dict_get raw "flag" PNone) = true) as Hfields
    by (by rewrite Hg, Huser, Hflag).
  rewrite (join_request_run _ _ _ Hfields Hallowed).
  rewrite bool_decide_eq_true_2 by done.
  split; [done|].
  unfold bind, emit, ret. rewrite process_run.
  destruct (supported imported event), (truthy (notice_enabled self)); simpl;
    rewrite ?app_nil_r, <- ?app_assoc; try done; by destruct w.
Qed.

(** C3. A join request that has its fields, for a group that is in scope,
    from a user who is not on that group's blacklist, with automatic
    approval on: the handler calls [_process_group_request] with
    [approve = True], and yields the approval notice exactly when that call
    returns true and notices are enabled.  The call returns true exactly when
    the platform is supported and the protocol end answers without raising;
    when it returns false nothing is yielded. *)
Theorem listed_out_join_request_approved (event : AstrMessageEvent)
    (raw : list (string * pyval)) (w : world) :
  _extract_raw_payload event = Some raw →
  is_join_request raw = true →
  event_user_id raw ≠ "" →
  truthy (dict_get raw "flag" PNone) = true →
  _group_allowed self (event_group_id event raw) = true →
  event_user_id raw ∉ blacklist w (event_group_id event raw) →
  truthy (auto_approve_enabled self) = true →
  let flag := dict_get raw "flag" PNone in
  let sub_type := dict_get raw "sub_type" (PStr "add") in
  let payload := [("flag", flag); ("sub_type", sub_type); ("approve", PBool true)] in
  let notice :=
    Yield ("成员 " +:+ _format_member (event_user_id raw) +:+ " 的入群申请已自动同意。") in
  let success :=
    supported imported event && succeeded (remote event "set_group_add_request" payload) in
  handle_group_events imported fmt self event w =
    (let! success := _process_group_request imported self event flag sub_type true in
     if success && truthy (notice_enabled self) then emit notice else ret tt) w
  ∧ result (_process_group_request imported self event flag sub_type true) w = Ret success
  ∧ handle_group_events imported fmt self event w =
    (Ret tt,
     World (files w)
       (trace w
        ++ (if supported imported event
            then [CallAction "set_group_add_request" payload] else [])
        ++ (if success && truthy (notice_enabled self) then [notice] else []))).
Proof.
  intros Hraw Hreq Huser Hflag Hallowed Hout Hauto. simpl.
  rewrite (dispatch_join_request _ _ Hraw Hreq).
  assert (String.eqb (event_group_id event raw) "" = false) as Hg.
  { unfold _group_allowed in Hallowed. by destruct (String.eqb _ ""). }
  apply String.eqb_neq in Huser.
  assert (negb (String.eqb (event_group_id event raw) "")
          && negb (String.eqb (event_user_id raw) "")
          && truthy (dict_get raw "flag" PNone) = true) as Hfields
    by (by rewrite Hg, Huser, Hflag).
  rewrite (join_request_run _ _ _ Hfields Hallowed).
  rewrite bool_decide_eq_false_2 by done. rewrite Hauto.
  split; [done|].
  unfold result, bind, emit, ret. rewrite process_run.
  destruct (supported imported event); simpl.
  - split; [done|].
    destruct (succeeded _), (truthy (notice_enabled self)); simpl;
      rewrite ?app_nil_r, <- ?app_assoc; done.
  - split; [done|]. rewrite app_nil_r. by destruct w.
Qed.

Lemma dict_get_set (raw : list (string * pyval)) (key key' : string) (v default : pyval) :
  dict_get (dict_set raw key v) key' default =
    if String.eqb key key' then v else dict_get raw key' default.
Proof.
  induction raw as [|[k v'] raw IH]; simpl.
  - by destruct (String.eqb key key').
  - destruct (String.eqb k key) eqn:Hk; simpl.
    + apply String.eqb_eq in Hk as ->. by destruct (String.eqb key key').
    + destruct (String.eqb k key') eqn:Hk'; [|done].
      apply String.eqb_eq in Hk' as ->.
      by rewrite String.eqb_sym, Hk.
Qed.

Lemma fallback_group_id (event : AstrMessageEvent) (raw : list (string * pyval)) :
  truthy (dict_get raw "group_id" PNone) = false →
  event_group_id event raw = message_group_id event ∧
  event_group_id event (dict_set raw "group_id" (PStr (message_group_id event)))
    = message_group_id event.
Proof.
  intros Hmiss. unfold event_group_id.
  rewrite dict_get_set, String.eqb_refl. split; [by apply or_else_falsy|].
  unfold or_else. by case (truthy (PStr (message_group_id event))).
Qed.

(** C7 (amended). The fallback is the same in both handlers: when the
    payload has no group id, a leave notice and a join request alike are
    handled for the group of the enclosing message.  The leave notice goes
    through the checks and the recording with that group; the join request
    is answered for that group: refused when the user is on its blacklist,
    approved when automatic approval is on, with the notices that go with
    either.  Either event is dropped only when a field is missing, the
    enclosing message has no group id either, or that group is out of
    scope. *)
Theorem group_id_fallback_both (event : AstrMessageEvent)
    (raw : list (string * pyval)) (w : world) :
  truthy (dict_get raw "group_id" PNone) = false →
  let gid := message_group_id event in
  let uid := event_user_id raw in
  let flag := dict_get raw "flag" PNone in
  let sub_type := dict_get raw "sub_type" (PStr "add") in
  let member := _format_member uid in
  let listed := bool_decide (uid ∈ blacklist w gid) in
  let auto := truthy (auto_approve_enabled self) in
  let notice := truthy (notice_enabled self) in
  let reject :=
    [("flag", flag); ("sub_type", sub_type); ("approve", PBool false);
     ("reason", reject_reason self)] in
  let approve := [("flag", flag); ("sub_type", sub_type); ("approve", PBool true)] in
  let answered :=
    supported imported event && succeeded (remote event "set_group_add_request" approve) in
  _handle_group_decrease fmt self event raw w =
    (if String.eqb gid "" || String.eqb uid "" then (Ret tt, w)
     else if negb (_group_allowed self gid) then (Ret tt, w)
     else
       (let! added := _add_to_blacklist gid uid in
        if added && notice
        then emit (Yield (_render_leave_notice fmt self gid uid))
        else ret tt) w)
  ∧ _handle_group_request imported self event raw w =
    (if negb (negb (String.eqb gid "") && negb (String.eqb uid "") && truthy flag)
     then (Ret tt, w)
     else if negb (_group_allowed self gid) then (Ret tt, w)
     else
       (Ret tt,
        World (files w)
          (trace w
           ++ (if supported imported event && (listed || auto)
               then [CallAction "set_group_add_request"
                       (if listed then reject else approve)]
               else [])
           ++ (if notice && (listed || auto && answered)
               then [Yield (if listed
                            then "检测到黑名单成员 " +:+ member +:+ " 申请入群，已自动拒绝。"
                            else "成员 " +:+ member +:+ " 的入群申请已自动同意。")]
               else []))%list)).
Proof.
  intros Hmiss. cbv zeta.
  destruct (fallback_group_id event raw Hmiss) as [Hg _].
  rewrite <- Hg. split.
  - unfold _handle_group_decrease.
    fold (event_group_id event raw) (event_user_id raw).
    destruct (String.eqb _ "" || String.eqb _ ""); [done|].
    destruct (negb (_group_allowed self (event_group_id event raw))); [done|].
    unfold bind. destruct (_add_to_blacklist _ _ w) as [[added|e] w']; [|done].
    by destruct (added && truthy (notice_enabled self)).
  - destruct (negb (String.eqb (event_group_id event raw) "")
              && negb (String.eqb (event_user_id raw) "")
              && truthy (dict_get raw "flag" PNone)) eqn:Hfields; simpl;
      [|apply join_request_dropped; by left].
    destruct (_group_allowed self (event_group_id event raw)) eqn:Hallowed; simpl;
      [|apply join_request_dropped; by right].
    rewrite (join_request_run _ _ _ Hfields Hallowed).
    unfold bind, emit, ret. rewrite !process_run.
    destruct (bool_decide _), (supported imported event),
      (truthy (auto_approve_enabled self)), (truthy (notice_enabled self));
      simpl; rewrite ?app_nil_r;
      try destruct (succeeded _); simpl;
      rewrite ?app_nil_r, <- ?app_assoc; try done; by destruct w.
Qed.

End Handlers.

(** ** The claims on sample inputs *)

Example init_config_123 :
  result (__init__ (Some config_123)) empty_world = Ret plugin_123.
Proof. vm_compute. reflexivity. Qed.

Example listed_42 : blacklist world_42_listed "123" = {["42"]}.
Proof. vm_compute. reflexivity. Qed.

Lemma group_allowed_scope_witness :
  ∃ gids,
    iter (dict_get config_123 "group_whitelist" (PList [])) = Ret gids ∧
    _group_allowed plugin_123 "123" =
      bool_decide (Exists (λ gid, truthy gid = true ∧ strip (str gid) = "123") gids).
Proof.
  apply (group_allowed_scope (Some config_123) empty_world plugin_123 "123").
  vm_compute. reflexivity.
Defined.

(** C9, as stated, fails: with the allow-list [" 123 "] the configured entry
    is trimmed and group 123 is in scope, but an event whose group id is
    " 123" does not, although it trims to an allowed id. *)
Lemma group_allowed_event_id_not_trimmed :
  result (__init__ (Some config_123)) empty_world = Ret plugin_123 ∧
  _group_allowed plugin_123 "123" = true ∧
  strip " 123" = "123" ∧
  _group_allowed plugin_123 " 123" = false.
Proof. repeat split; vm_compute; reflexivity. Qed.

Lemma closed_allow_list_no_effect_witness :
  handle_group_events true format_names plugin_closed leave_event world_42_listed
    = (Ret tt, world_42_listed).
Proof.
  apply (closed_allow_list_no_effect true format_names plugin_closed leave_event world_42_listed).
  - reflexivity.
  - reflexivity.
Defined.

Lemma malformed_payload_dropped_witness :
  handle_group_events true format_names plugin_open no_user_request world_42_listed
    = (Ret tt, world_42_listed).
Proof.
  apply (malformed_payload_dropped true format_names plugin_open no_user_request
           request_raw_no_user world_42_listed).
  - reflexivity.
  - vm_compute. reflexivity.
Defined.

Lemma join_request_keeps_blacklists_witness :
  result (handle_group_events true format_names plugin_open answered_request) world_42_listed
    = Ret tt ∧
  files (after (handle_group_events true format_names plugin_open answered_request)
           world_42_listed) = files world_42_listed ∧
  ∀ g, blacklist (after (handle_group_events true format_names plugin_open answered_request)
                    world_42_listed) g = blacklist world_42_listed g.
Proof.
  apply (join_request_keeps_blacklists true format_names plugin_open answered_request
           request_raw world_42_listed).
  - reflexivity.
  - vm_compute. reflexivity.
Defined.

Lemma blacklisted_join_request_rejected_witness :
  handle_group_events true format_names plugin_open refused_request world_42_listed
    = (Ret tt,
       World (files world_42_listed)
         [reject_call; Yield "检测到黑名单成员 [CQ:at,qq=42] 申请入群，已自动拒绝。"]).
Proof.
  refine (proj2 (blacklisted_join_request_rejected true format_names plugin_open
                   refused_request request_raw world_42_listed _ _ _ _ _ _)).
  - reflexivity.
  - vm_compute. reflexivity.
  - vm_compute. discriminate.
  - vm_compute. reflexivity.
  - vm_compute. reflexivity.
  - vm_compute. reflexivity.
Defined.

Lemma listed_out_join_request_approved_witness :
  handle_group_events true format_names plugin_open answered_request empty_world
    = (Ret tt,
       World ∅ [approve_call; Yield "成员 [CQ:at,qq=42] 的入群申请已自动同意。"])
  ∧ handle_group_events true format_names plugin_open refused_request empty_world
    = (Ret tt, World ∅ [approve_call]).
Proof.
  split.
  - refine (proj2 (proj2 (listed_out_join_request_approved true format_names plugin_open
                            answered_request request_raw empty_world _ _ _ _ _ _ _))).
    + reflexivity.
    + vm_compute. reflexivity.
    + vm_compute. discriminate.
    + vm_compute. reflexivity.
    + vm_compute. reflexivity.
    + vm_compute. discriminate.
    + reflexivity.
  - refine (proj2 (proj2 (listed_out_join_request_approved true format_names plugin_open
                            refused_request request_raw empty_world _ _ _ _ _ _ _))).
    + reflexivity.
    + vm_compute. reflexivity.
    + vm_compute. discriminate.
    + vm_compute. reflexivity.
    + vm_compute. reflexivity.
    + vm_compute. discriminate.
    + reflexivity.
Defined.

(** C7, as stated, fails: a join request whose payload has no group id is
    not dropped.  It is handled for the group of the enclosing message: here
    user 42 is on the blacklist of that group, the request is rejected and
    the notice is yielded. *)
Lemma join_request_without_group_id_handled :
  dict_get request_raw_no_group "group_id" PNone = PNone ∧
  _extract_raw_payload fallback_request = Some request_raw_no_group ∧
  is_join_request request_raw_no_group = true ∧
  handle_group_events true format_names plugin_open fallback_request world_42_listed
    = (Ret tt,
       World (files world_42_listed)
         [reject_call; Yield "检测到黑名单成员 [CQ:at,qq=42] 申请入群，已自动拒绝。"]) ∧
  handle_group_events true format_names plugin_open fallback_request world_42_listed
    ≠ (Ret tt, world_42_listed).
Proof.
  assert (handle_group_events true format_names plugin_open fallback_request world_42_listed
          = (Ret tt,
             World (files world_42_listed)
               [reject_call; Yield "检测到黑名单成员 [CQ:at,qq=42] 申请入群，已自动拒绝。"]))
    as Hrun by (vm_compute; reflexivity).
  split; [reflexivity|]. split; [reflexivity|].
  split; [vm_compute; reflexivity|]. split; [exact Hrun|].
  rewrite Hrun. intros Heq. injection Heq as Htrace. discriminate Htrace.
Qed.

Lemma group_id_fallback_both_witness :
  _handle_group_decrease format_names plugin_open fallback_leave leave_raw_no_group
      empty_world
    = (Ret tt,
       World {[ _blacklist_file "123" := Json (PList [PStr "42"]) ]} [Yield "left"])
  ∧ _handle_group_request true plugin_open fallback_request request_raw_no_group
      world_42_listed
    = (Ret tt,
       World (files world_42_listed)
         [reject_call; Yield "检测到黑名单成员 [CQ:at,qq=42] 申请入群，已自动拒绝。"]).
Proof.
  split.
  - refine (eq_trans (proj1 (group_id_fallback_both true format_names plugin_open
                               fallback_leave leave_raw_no_group empty_world _)) _).
    + reflexivity.
    + vm_compute. reflexivity.
  - refine (eq_trans (proj2 (group_id_fallback_both true format_names plugin_open
                               fallback_request request_raw_no_group world_42_listed _)) _).
    + reflexivity.
    + vm_compute. reflexivity.
Defined.





(** C6, as stated, fails for the group id: a payload that has no group id
    is not dropped when the enclosing message has one.  A leave notice
    without a group id, inside a message of group 123, puts the user on the
    blacklist of group 123 and yields the notice; a join request without a
    group id is approved through the protocol client and the approval is
    announced. *)
Lemma payload_without_group_id_acted_on :
  dict_get leave_raw_no_group "group_id" PNone = PNone ∧
  dict_get request_raw_no_group "group_id" PNone = PNone ∧
  is_leave leave_raw_no_group = true ∧
  is_join_request request_raw_no_group = true ∧
  handle_group_events true format_names plugin_open fallback_leave empty_world
    = (Ret tt,
       World {[ _blacklist_file "123" := Json (PList [PStr "42"]) ]} [Yield "left"]) ∧
  blacklist (after (handle_group_events true format_names plugin_open fallback_leave)
               empty_world) "123" = {["42"]} ∧
  handle_group_events true format_names plugin_open fallback_request empty_world
    = (Ret tt,
       World ∅ [approve_call; Yield "成员 [CQ:at,qq=42] 的入群申请已自动同意。"]).
Proof. vm_compute. repeat split; reflexivity. Qed.

(** A member leaves group 123: the member is recorded and one notice is
    yielded; the same notice a second time changes nothing. *)
Example leave_then_leave_again :
  let w1 := after (handle_group_events true format_names plugin_open leave_event) empty_world in
  blacklist w1 "123" = {["42"]}
  ∧ trace w1 = [Yield "left"]
  ∧ handle_group_events true format_names plugin_open leave_event w1 = (Ret tt, w1).
Proof. vm_compute. repeat split; reflexivity. Qed.

(** The default template names the member; a template with a key the data
    does not have, or with a lone brace, falls back to the default text. *)
Example render_default_template :
  _render_leave_notice format_names plugin_123 "123" "42"
    = "成员 [CQ:at,qq=42] 已退出群聊，并被加入黑名单。"
  ∧ format_names "{{{user_id}}} left {group_id}" [("user_id", "42"); ("group_id", "123")]
    = Ret "{42} left 123"
  ∧ format_names "{nobody} left" [("user_id", "42")] = Raise KeyError
  ∧ format_names "left}" [("user_id", "42")] = Raise ValueError
  ∧ format_names "{user_id" [("user_id", "42")] = Raise ValueError.
Proof. vm_compute. repeat split; reflexivity. Qed.

Example repr_nested :
  str (PList [PInt (-3); PStr "a\b"; PDict [("k", PNone)]]) = "[-3, 'a\\b', {'k': None}]".
Proof. vm_compute. reflexivity. Qed.

Example strip_spaces : strip "  12 3  " = "12 3".
Proof. vm_compute. reflexivity. Qed.

(** The ideographic space U+3000 and the no-break space U+00A0 are trimmed;
    the zero-width space U+200B is not white space. *)
Example strip_unicode_spaces :
  strip (of_bytes [227; 128; 128]%N +:+ "123" +:+ of_bytes [194; 160]%N) = "123"
  ∧ strip (of_bytes [226; 128; 139]%N +:+ "123") = of_bytes [226; 128; 139]%N +:+ "123".
Proof. vm_compute. split; reflexivity. Qed.

(** An allow-list entry padded with an ideographic space allows the group. *)
Example wide_space_entry_trimmed :
  ∃ p,
    result (__init__
              (Some [("group_whitelist",
                      PList [PStr (of_bytes [227; 128; 128]%N +:+ "123")])]))
           empty_world = Ret p
    ∧ _group_allowed p "123" = true.
Proof. eexists. split; vm_compute; reflexivity. Qed.

(** The Arabic-Indic digit three U+0663 and the superscript two U+00B2 are
    digits; the fraction one half U+00BD and the empty text are not. *)
Example isdigit_unicode :
  isdigit (of_bytes [217; 163]%N) = true
  ∧ isdigit (of_bytes [194; 178]%N) = true
  ∧ isdigit (of_bytes [194; 189]%N) = false
  ∧ isdigit "" = false
  ∧ isdigit "12a" = false
  ∧ _format_member "42" = "[CQ:at,qq=42]"
  ∧ _format_member "u42" = "u42".
Proof. vm_compute. repeat split; reflexivity. Qed.

(** [repr] escapes what is not printable: DEL, the zero-width space and a
    lone surrogate. *)
Example repr_unprintable :
  repr (PStr (of_bytes [127]%N)) = "'\x7f'"
  ∧ repr (PStr (of_bytes [226; 128; 139]%N)) = "'\u200b'"
  ∧ repr (PStr lone_surrogate) = "'\ud800'".
Proof. vm_compute. repeat split; reflexivity. Qed.

(** Paths the system refuses, and one it accepts: a surrogate that stands
    for an undecodable byte. *)
Example refused_paths :
  path_error (_blacklist_file "123") = None
  ∧ path_error (_blacklist_file long_id) = Some OSError
  ∧ path_error (_blacklist_file nul_id) = Some ValueError
  ∧ path_error (_blacklist_file lone_surrogate) = Some ValueError
  ∧ path_error (_blacklist_file (of_bytes [237; 178; 128]%N)) = None.
Proof. vm_compute. repeat split; reflexivity. Qed.

Example sorted_ids : sorted ["10"; "9"; "1"; ""] = [""; "1"; "10"; "9"].
Proof. vm_compute. reflexivity. Qed.

Example blacklist_path :
  _blacklist_file "123" = "data/plugins/astrbot_plugin_qq_ban/123/blacklist.json".
Proof. reflexivity. Qed.

(** * Further properties of the code *)

(** ** Texts *)

Lemma app_cons (c : ascii) (s t : string) : String c s +:+ t = String c (s +:+ t).
Proof. reflexivity. Qed.

Lemma app_empty_r (s : string) : s +:+ "" = s.
Proof. induction s as [|c s IH]; [done|]. by rewrite app_cons, IH. Qed.

Lemma app_assoc_str (s t u : string) : (s +:+ t) +:+ u = s +:+ (t +:+ u).
Proof. induction s as [|c s IH]; [done|]. by rewrite !app_cons, IH. Qed.

Lemma rev_app_acc (s acc : string) : String.rev_app s acc = String.rev s +:+ acc.
Proof.
  unfold String.rev. revert acc.
  induction s as [|c s IH]; intros acc; simpl; [done|].
  rewrite IH, (IH (String c "")). by rewrite app_assoc_str.
Qed.

Lemma rev_cons (c : ascii) (s : string) :
  String.rev (String c s) = String.rev s +:+ String c "".
Proof. unfold String.rev at 1. simpl. apply rev_app_acc. Qed.

Lemma rev_append (s t : string) : String.rev (s +:+ t) = String.rev t +:+ String.rev s.
Proof.
  induction s as [|c s IH].
  - by rewrite app_empty_r.
  - by rewrite app_cons, !rev_cons, IH, app_assoc_str.
Qed.

Lemma rev_involutive (s : string) : String.rev (String.rev s) = s.
Proof.
  induction s as [|c s IH]; [done|].
  by rewrite rev_cons, rev_append, IH.
Qed.

Lemma contains_char_append (c : ascii) (s t : string) :
  contains_char c (s +:+ t) = contains_char c s || contains_char c t.
Proof.
  induction s as [|a s IH]; [done|].
  rewrite app_cons. simpl. by rewrite IH, orb_assoc.
Qed.

Lemma contains_char_rev (c : ascii) (s : string) :
  contains_char c (String.rev s) = contains_char c s.
Proof.
  induction s as [|a s IH]; [done|].
  rewrite rev_cons, contains_char_append, IH. simpl.
  by rewrite orb_false_r, orb_comm.
Qed.

(** ** Paths of the blacklist files *)

Lemma path_join_cases (a b : string) :
  path_join a b =
    if starts_with "/" b then b
    else match String.rev a with
         | EmptyString => b
         | String c _ => if Ascii.eqb c "/" then a +:+ b else a +:+ "/" +:+ b
         end.
Proof.
  unfold path_join.
  assert (Hrev : match String.rev a with
                 | EmptyString => b
                 | String "/" _ => a +:+ b
                 | String _ _ => a +:+ "/" +:+ b
                 end
                 = match String.rev a with
                   | EmptyString => b
                   | String c _ => if Ascii.eqb c "/" then a +:+ b else a +:+ "/" +:+ b
                   end).
  { destruct (String.rev a) as [|c r]; [done|].
    by destruct c as [[] [] [] [] [] [] [] []]. }
  destruct b as [|c b]; [done|].
  destruct c as [[] [] [] [] [] [] [] []]; simpl; try done; apply Hrev.
Qed.

Lemma DATA_DIR_text : DATA_DIR = "data/plugins/astrbot_plugin_qq_ban".
Proof. reflexivity. Qed.

Lemma slash_free_head (s : string) :
  slash_free s = true → starts_with "/" s = false.
Proof.
  unfold slash_free. destruct s as [|c s]; [done|]. simpl.
  intros H%negb_true_iff. by apply orb_false_iff in H as [-> _].
Qed.

Lemma slash_free_rev (s : string) : slash_free (String.rev s) = slash_free s.
Proof. unfold slash_free. by rewrite contains_char_rev. Qed.

Lemma rev_nonempty (s : string) : s ≠ "" → String.rev s ≠ "".
Proof. intros Hs Hrev. apply Hs. by rewrite <- (rev_involutive s), Hrev. Qed.

Lemma path_join_slash_free (a b : string) :
  slash_free b = true → b ≠ "" →
  ∀ t, path_join (a +:+ b) t
       = if starts_with "/" t then t else a +:+ b +:+ "/" +:+ t.
Proof.
  intros Hfree Hne t. rewrite path_join_cases. destruct (starts_with "/" t); [done|].
  rewrite rev_append.
  pose proof (rev_nonempty b Hne) as Hrne.
  pose proof (slash_free_head (String.rev b)) as Hhead.
  rewrite slash_free_rev in Hhead. specialize (Hhead Hfree).
  destruct (String.rev b) as [|c r]; [done|].
  rewrite app_cons. simpl in Hhead. rewrite Hhead. by rewrite app_assoc_str.
Qed.

(** The file of a group whose id is not empty and has no path separator. *)
Lemma blacklist_file_slash_free (g : string) :
  slash_free g = true → g ≠ "" →
  _blacklist_file g = DATA_DIR +:+ "/" +:+ g +:+ "/" +:+ "blacklist.json".
Proof.
  intros Hfree Hne. unfold _blacklist_file, _group_dir.
  assert (path_join DATA_DIR g = (DATA_DIR +:+ "/") +:+ g) as ->.
  { rewrite path_join_cases, (slash_free_head g Hfree), DATA_DIR_text. simpl.
    by rewrite app_assoc_str. }
  rewrite (path_join_slash_free (DATA_DIR +:+ "/") g Hfree Hne). simpl.
  by rewrite !app_assoc_str.
Qed.

(** X1. The blacklist file of a group whose id is not empty and has no path
    separator is [DATA_DIR/<id>/blacklist.json]. *)
Theorem blacklist_file_per_group (g : string) :
  slash_free g = true → g ≠ "" →
  _blacklist_file g = "data/plugins/astrbot_plugin_qq_ban/" +:+ g +:+ "/blacklist.json".
Proof.
  intros Hfree Hne.
  rewrite (blacklist_file_slash_free g Hfree Hne), DATA_DIR_text.
  reflexivity.
Qed.

(** X2. A group id that begins with the path separator is taken as an
    absolute path: the data directory is dropped from the directory of the
    group, and the blacklist file lies directly under the id. *)
Theorem absolute_group_id_leaves_data_dir (g : string) :
  starts_with "/" g = true →
  _group_dir g = g
  ∧ _blacklist_file g
    = if starts_with "/" (String.rev g) then g +:+ "blacklist.json"
      else g +:+ "/" +:+ "blacklist.json".
Proof.
  intros Habs. unfold _blacklist_file, _group_dir.
  rewrite (path_join_cases DATA_DIR g), Habs. split; [done|].
  rewrite path_join_cases. simpl.
  destruct g as [|c g]; [done|].
  pose proof (rev_nonempty (String c g)) as Hne.
  destruct (String.rev (String c g)) as [|c' r]; [by destruct Hne|]. done.
Qed.

(** ** More on the blacklist store *)




(** X10. A write that is torn empties the blacklist.  When a user is added,
    the file can be opened, and a member, old or new, holds a lone surrogate
    (or the device fails during the write), [_add_to_blacklist] still
    returns true, but the file is left cut short: the blacklist of the group
    is empty afterwards, the new user and all old members included. *)
Theorem torn_write_empties_blacklist (g u : string) (w : world) :
  u ∉ blacklist w g →
  result (os_makedirs (_group_dir g)) w = Ret tt →
  path_error (_blacklist_file g) = None →
  files w !! _blacklist_file g ≠ Some Blocked →
  encodable (saved_doc (blacklist w g ∪ {[u]})) = false
  ∨ (∃ doc, files w !! _blacklist_file g = Some (Fragile doc)) →
  result (_add_to_blacklist g u) w = Ret true
  ∧ blacklist (after (_add_to_blacklist g u) w) g = ∅.
Proof.
  intros Hout Hdir Hpath Hopen Htorn.
  unfold result, after.
  rewrite add_run, bool_decide_eq_false_2, save_unfold, Hdir by done.
  unfold try_except, json_dump, ret. rewrite Hpath.
  destruct (files w !! _blacklist_file g) as [[| | |doc]|] eqn:Hfile; try done;
    try (destruct Htorn as [-> | [doc' [=]]]; simpl; split; [done|];
         by rewrite blacklist_lookup; simpl; rewrite lookup_insert_eq).
  simpl. split; [done|].
  by rewrite blacklist_lookup; simpl; rewrite lookup_insert_eq.
Qed.

(** X6. A blacklist file that holds a JSON document which is not iterable
    (null, a boolean, a number) is read as the empty blacklist: the
    [TypeError] of the iteration is swallowed. *)
Theorem load_not_iterable (g : string) (doc : pyval) (e : exn) (w : world) :
  files w !! _blacklist_file g = Some (Json doc) →
  iter doc = Raise e →
  _load_blacklist g w = (Ret ∅, w).
Proof.
  intros Hfile Hiter. rewrite load_run, Hfile. unfold members_of. simpl.
  by rewrite Hiter.
Qed.

(** X7. A blacklist file that holds a JSON array is read element by element
    as text: a user id is on the list exactly when it is the text of some
    element, so the number 42 and the string 42 are the same member. *)
Theorem load_array_as_text (g : string) (items : list pyval) (u : string) (w : world) :
  files w !! _blacklist_file g = Some (Json (PList items)) →
  (result (_in_blacklist g u) w = Ret true ↔ ∃ item, item ∈ items ∧ str item = u).
Proof.
  intros Hfile. unfold result. rewrite in_blacklist_run. simpl.
  rewrite blacklist_lookup, Hfile. simpl.
  split.
  - intros [= Hin%bool_decide_eq_true_1].
    apply elem_of_list_to_set, list_elem_of_In, in_map_iff in Hin as (item & Hstr & Hin).
    exists item. by rewrite list_elem_of_In.
  - intros (item & Hin & Hstr). f_equal. apply bool_decide_eq_true_2.
    apply elem_of_list_to_set, list_elem_of_In, in_map_iff.
    exists item. by rewrite <- list_elem_of_In.
Qed.

(** ** More on the handlers *)

Section MoreHandlers.

Context (imported : bool) (fmt : string → list (string * string) → res string)
        (self : QQBanPlugin).

Lemma blacklist_with_files (w : world) (effects : list effect) (g : string) :
  blacklist (World (files w) effects) g = blacklist w g.
Proof. by rewrite !blacklist_lookup. Qed.

Lemma add_trace (g u : string) (w : world) :
  ∃ r fs, _add_to_blacklist g u w = (r, World fs (trace w)).
Proof.
  rewrite add_run. case_bool_decide; [by destruct w; eauto|].
  destruct (save_trace g (blacklist w g ∪ {[u]}) w) as (r & fs & ->).
  destruct r; eauto.
Qed.

Lemma leave_unfold (event : AstrMessageEvent) (raw : list (string * pyval)) (w : world) :
  String.eqb (event_group_id event raw) "" || String.eqb (event_user_id raw) "" = false →
  _group_allowed self (event_group_id event raw) = true →
  let gid := event_group_id event raw in
  let uid := event_user_id raw in
  _handle_group_decrease fmt self event raw w =
    match _add_to_blacklist gid uid w with
    | (Ret added, w') =>
        if added && truthy (notice_enabled self)
        then emit (Yield (_render_leave_notice fmt self gid uid)) w'
        else (Ret tt, w')
    | (Raise e, w') => (Raise e, w')
    end.
Proof.
  intros Hfields Hallowed. simpl.
  unfold _handle_group_decrease. fold (event_group_id event raw) (event_user_id raw).
  rewrite Hfields, Hallowed. simpl. unfold bind.
  destruct (_add_to_blacklist _ _ w) as [[added|e] w']; [|done].
  by destruct (added && truthy (notice_enabled self)).
Qed.


(** Whatever happens, [_handle_group_decrease] calls nobody and yields at
    most one message. *)
Lemma leave_shape (event : AstrMessageEvent) (raw : list (string * pyval)) (w : world) :
  ∃ r fs effects,
    _handle_group_decrease fmt self event raw w
      = (r, World fs (trace w ++ effects)%list)
    ∧ (effects = [] ∨ ∃ message, effects = [Yield message]).
Proof.
  assert (Hnone : ∀ (r : res unit) fs,
    ∃ r' fs' effects,
      (r, World fs (trace w)) = (r', World fs' (trace w ++ effects)%list)
      ∧ (effects = [] ∨ ∃ message, effects = [Yield message])).
  { intros r fs. exists r, fs, []. rewrite app_nil_r. split; [done | by left]. }
  destruct (String.eqb (event_group_id event raw) "" || String.eqb (event_user_id raw) "")
    eqn:Hfields.
  { rewrite leave_dropped by (by left). destruct w as [fs tr]. apply (Hnone (Ret tt) fs). }
  destruct (_group_allowed self (event_group_id event raw)) eqn:Hallowed.
  2: { rewrite leave_dropped by (by right). destruct w as [fs tr]. apply (Hnone (Ret tt) fs). }
  rewrite (leave_unfold _ _ _ Hfields Hallowed).
  destruct (add_trace (event_group_id event raw) (event_user_id raw) w) as (r & fs & ->).
  destruct r as [added|e]; [|apply Hnone].
  destruct (added && truthy (notice_enabled self)); [|apply Hnone].
  unfold emit. simpl. eexists _, _, [_]. split; [done|]. right. by eexists.
Qed.



(** X11. Handling a leave notice never calls the protocol client, and it
    yields at most one message. *)
Theorem leave_yields_at_most_once (event : AstrMessageEvent)
    (raw : list (string * pyval)) (w : world) :
  _extract_raw_payload event = Some raw →
  is_leave raw = true →
  ∃ effects,
    trace (after (handle_group_events imported fmt self event) w)
      = (trace w ++ effects)%list
    ∧ (effects = [] ∨ ∃ message, effects = [Yield message]).
Proof.
  intros Hraw Hleave. rewrite (dispatch_leave _ _ _ _ _ Hraw Hleave). unfold after.
  destruct (leave_shape event raw w) as (r & fs & effects & -> & Heffects).
  by exists effects.
Qed.

(** X12. An event whose raw payload is not a mapping, is empty, or is
    neither a leave notice nor a join request is ignored: handling leaves the
    world as it was. *)
Theorem other_events_ignored (event : AstrMessageEvent) (w : world) :
  match _extract_raw_payload event with
  | None => True
  | Some raw => is_leave raw = false ∧ is_join_request raw = false
  end →
  handle_group_events imported fmt self event w = (Ret tt, w).
Proof.
  intros Hother.
  destruct (dispatch_cases imported fmt self event)
    as [-> | (raw & Hraw & [[Hleave _] | [Hreq _]])]; [done|..];
    rewrite Hraw in Hother; destruct Hother; congruence.
Qed.

(** X13. An event for a group that is out of scope is dropped, whatever the
    event: handling leaves the world as it was. *)
Theorem out_of_scope_dropped (event : AstrMessageEvent) (raw : list (string * pyval))
    (w : world) :
  _extract_raw_payload event = Some raw →
  _group_allowed self (event_group_id event raw) = false →
  handle_group_events imported fmt self event w = (Ret tt, w).
Proof.
  intros Hraw Hout.
  destruct (dispatch_cases imported fmt self event)
    as [-> | (raw' & Hraw' & [[_ ->] | [_ ->]])]; [done|..];
    rewrite Hraw in Hraw'; injection Hraw' as <-.
  - apply leave_dropped. by right.
  - apply join_request_dropped. by right.
Qed.

(** X14. With automatic approval off, a join request from a user who is not
    on the blacklist of the group is left alone: the protocol client is not
    called and nothing is yielded. *)
Theorem unlisted_request_left_pending (event : AstrMessageEvent)
    (raw : list (string * pyval)) (w : world) :
  _extract_raw_payload event = Some raw →
  is_join_request raw = true →
  truthy (auto_approve_enabled self) = false →
  event_user_id raw ∉ blacklist w (event_group_id event raw) →
  handle_group_events imported fmt self event w = (Ret tt, w).
Proof.
  intros Hraw Hreq Hauto Hout.
  rewrite (dispatch_join_request _ _ _ _ _ Hraw Hreq).
  destruct (negb (String.eqb (event_group_id event raw) "")
            && negb (String.eqb (event_user_id raw) "")
            && truthy (dict_get raw "flag" PNone)) eqn:Hfields;
    [|apply join_request_dropped; by left].
  destruct (_group_allowed self (event_group_id event raw)) eqn:Hallowed;
    [|apply join_request_dropped; by right].
  rewrite (join_request_run _ _ _ _ _ Hfields Hallowed).
  by rewrite bool_decide_eq_false_2, Hauto.
Qed.

(** X15. [_process_group_request] never raises and never writes a file.  It
    calls the protocol client, once, only when the platform is aiocqhttp,
    the optional import succeeded and the event is an aiocqhttp event; then
    it returns whether the client answered without raising, and the payload
    carries the reject reason exactly when the request is refused.
    Otherwise it returns false and leaves the world as it was. *)
Theorem process_group_request_outcome (event : AstrMessageEvent)
    (flag sub_type : pyval) (approve : bool) (w : world) :
  ∃ (ok : bool) (calls : list effect),
    _process_group_request imported self event flag sub_type approve w
      = (Ret ok, World (files w) (trace w ++ calls)%list)
    ∧ if String.eqb (get_platform_name event) "aiocqhttp" && imported
         && is_aiocqhttp event
      then ∃ payload,
             calls = [CallAction "set_group_add_request" payload]
             ∧ ok = succeeded (remote event "set_group_add_request" payload)
             ∧ dict_get payload "flag" PNone = flag
             ∧ dict_get payload "sub_type" PNone = sub_type
             ∧ dict_get payload "approve" PNone = PBool approve
             ∧ dict_get payload "reason" PNone
               = (if approve then PNone else reject_reason self)
      else ok = false ∧ calls = [].
Proof.
  rewrite process_run. unfold supported.
  destruct (String.eqb _ "aiocqhttp" && imported && is_aiocqhttp event).
  - eexists _, _. split; [done|]. eexists. split; [done|]. split; [done|].
    by destruct approve.
  - exists false, []. rewrite app_nil_r. by destruct w.
Qed.

End MoreHandlers.

(** ** More on the configuration and the scope check *)

Lemma closed_plugin_drops (imported : bool)
    (fmt : string → list (string * string) → res string) (self : QQBanPlugin)
    (event : AstrMessageEvent) (w : world) :
  (∀ g, _group_allowed self g = false) →
  handle_group_events imported fmt self event w = (Ret tt, w).
Proof.
  intros Hclosed.
  destruct (dispatch_cases imported fmt self event)
    as [-> | (raw & _ & [[_ ->] | [_ ->]])]; [done|..].
  - apply leave_dropped. right. apply Hclosed.
  - apply join_request_dropped. right. apply Hclosed.
Qed.

(** X16. A plugin built from a configuration that names no allowed group
    (no allow-list, or an empty one) and does not switch enforcement off
    acts on nothing: every event is dropped. *)
Theorem unconfigured_plugin_inert (config : option (list (string * pyval)))
    (w0 : world) (p : QQBanPlugin) :
  result (__init__ config) w0 = Ret p →
  dict_get (from_option id [] config) "group_whitelist" (PList []) = PList [] →
  truthy (dict_get (from_option id [] config) "enable_group_whitelist" (PBool true))
    = true →
  ∀ imported fmt event w,
    handle_group_events imported fmt p event w = (Ret tt, w).
Proof.
  intros Hinit Hlist Henf imported fmt event w.
  destruct (init_run _ _ _ Hinit) as (gids & Hiter & Hp & Hwl).
  rewrite Hlist in Hiter. injection Hiter as <-.
  apply closed_plugin_drops.
  intros g. unfold _group_allowed. rewrite Hp, Henf, Hwl. simpl.
  destruct (String.eqb g ""); [done|].
  by rewrite bool_decide_eq_false_2 by apply not_elem_of_empty.
Qed.

(** X17. How building the plugin ends.  Without a configuration, or with
    an empty one, it raises [TypeError] ([AstrBotConfig] is handed a mapping
    where it takes the path of a file); so it does when the configured
    allow-list is not iterable (null, a boolean, a number).  Otherwise it
    raises what making the data directory raises, or returns a plugin.  The
    world is left as it was in every case. *)
Theorem init_needs_iterable_whitelist (config : option (list (string * pyval)))
    (w : world) :
  match config with
  | Some (entry :: entries) =>
      match dict_get (entry :: entries) "group_whitelist" (PList []) with
      | PNone | PBool _ | PInt _ => __init__ config w = (Raise TypeError, w)
      | _ =>
          match result (os_makedirs DATA_DIR) w with
          | Ret _ => ∃ p, __init__ config w = (Ret p, w)
          | Raise e => __init__ config w = (Raise e, w)
          end
      end
  | _ => __init__ config w = (Raise TypeError, w)
  end.
Proof.
  rewrite init_unfold.
  destruct config as [[|entry entries]|]; try done. cbv zeta.
  destruct (dict_get _ "group_whitelist" _); simpl; try done;
    destruct (result _ w); eauto.
Qed.

Lemma all_cont_append (s t : string) :
  all_cont (s +:+ t) = all_cont s && all_cont t.
Proof.
  induction s as [|b s IH]; [done|].
  rewrite app_cons. simpl. by rewrite IH, andb_assoc.
Qed.

Lemma all_cont_rev (s : string) : all_cont (String.rev s) = all_cont s.
Proof.
  induction s as [|b s IH]; [done|].
  rewrite rev_cons, all_cont_append, IH. simpl.
  by rewrite andb_true_r, andb_comm.
Qed.

Lemma chars_go_wf (s cur : string) (rem : nat) :
  wf_char cur → (rem ≠ 0 → is_lead cur = true) →
  Forall wf_char (chars_go cur rem s).
Proof.
  revert cur rem. induction s as [|b s IH]; intros cur rem Hcur Hrem; simpl.
  - by constructor.
  - assert (Hnew : Forall wf_char (chars_go (String b "") (utf8_len b - 1) s)).
    { apply IH; [done|]. unfold utf8_len, is_lead.
      destruct (N_of_ascii b <? 192)%N eqn:Hlt; [done|].
      intros _. by apply N.leb_le, N.ltb_ge. }
    destruct rem as [|rem]; [by constructor|].
    destruct (is_cont b) eqn:Hb; [|by constructor].
    apply IH.
    + destruct cur as [|b0 r]; [done|]. destruct Hcur as [Hr _].
      rewrite app_cons. split.
      * by rewrite all_cont_append, Hr; simpl; rewrite Hb.
      * intros _. by apply Hrem.
    + intros _. destruct cur as [|b0 r]; [done|]. by apply Hrem.
Qed.

Lemma split_chars_wf (s : string) : Forall wf_char (split_chars s).
Proof.
  destruct s as [|b s]; [constructor|]. simpl.
  apply chars_go_wf; [done|]. unfold utf8_len, is_lead.
  destruct (N_of_ascii b <? 192)%N eqn:Hlt; [done|].
  intros _. by apply N.leb_le, N.ltb_ge.
Qed.

Lemma ascii_space_char (b : ascii) :
  ascii_space b = true →
  is_space_char (String b "") = true ∧ is_cont b = false
  ∧ (192 <=? N_of_ascii b)%N = false.
Proof. destruct b as [[] [] [] [] [] [] [] []]; vm_compute; intros; by repeat split. Qed.

Lemma char_head_not_space (c t : string) :
  wf_char c → is_space_char c = false → starts_with_space (c +:+ t) = false.
Proof.
  destruct c as [|b r]; [done|]. intros [_ Hlead] Hc. rewrite app_cons. simpl.
  destruct (ascii_space b) eqn:Hb; [|done].
  destruct (ascii_space_char b Hb) as (Hspace & _ & Hlow).
  destruct r as [|b' r]; [congruence|].
  simpl in Hlead. by rewrite Hlead in Hlow.
Qed.

Lemma char_last_not_space (c t : string) :
  wf_char c → is_space_char c = false →
  starts_with_space (String.rev c +:+ t) = false.
Proof.
  destruct c as [|b r]; [done|]. intros [Hcont Hlead] Hc.
  rewrite rev_cons.
  destruct r as [|b' r].
  - simpl. destruct (ascii_space b) eqn:Hb; [|done].
    destruct (ascii_space_char b Hb) as (Hspace & _). congruence.
  - pose proof (rev_nonempty (String b' r)) as Hne.
    pose proof (all_cont_rev (String b' r)) as Hrev. rewrite Hcont in Hrev.
    destruct (String.rev (String b' r)) as [|x u]; [by destruct Hne|].
    rewrite !app_cons. simpl. simpl in Hrev.
    apply andb_true_iff in Hrev as [Hx _].
    destruct (ascii_space x) eqn:Hsp; [|done].
    destruct (ascii_space_char x Hsp) as (_ & Hnc & _). congruence.
Qed.

Lemma drop_spaces_head (cs : list string) :
  match drop_spaces cs with
  | c :: _ => is_space_char c = false
  | [] => True
  end.
Proof.
  induction cs as [|c cs IH]; [done|]. simpl.
  by destruct (is_space_char c) eqn:Hc.
Qed.

Lemma drop_spaces_suffix (cs : list string) : ∃ k, cs = (k ++ drop_spaces cs)%list.
Proof.
  induction cs as [|c cs [k IH]]; [by exists []|]. simpl.
  destruct (is_space_char c).
  - exists (c :: k). simpl. by rewrite <- IH.
  - by exists [].
Qed.

Lemma concat_chars_app (l1 l2 : list string) :
  concat_chars (l1 ++ l2) = concat_chars l1 +:+ concat_chars l2.
Proof.
  induction l1 as [|c l1 IH]; [done|]. simpl.
  change (concat_chars (l1 ++ l2)) with (fold_right String.append "" (l1 ++ l2)) in IH.
  unfold concat_chars in *. simpl. by rewrite IH, app_assoc_str.
Qed.

Lemma strip_trimmed (s : string) :
  starts_with_space (strip s) = false ∧ ends_with_space (strip s) = false.
Proof.
  unfold strip, ends_with_space.
  pose proof (split_chars_wf s) as Hwf.
  destruct (drop_spaces_suffix (split_chars s)) as [k1 Hk1].
  rewrite Hk1 in Hwf. apply Forall_app in Hwf as [_ Hwf].
  pose proof (drop_spaces_head (split_chars s)) as Hhead.
  set (L := drop_spaces (split_chars s)) in *.
  destruct (drop_spaces_suffix (rev L)) as [k2 Hk2].
  pose proof (drop_spaces_head (rev L)) as Hlast.
  destruct (drop_spaces (rev L)) as [|d D]; [done|].
  assert (HL : L = ((rev D ++ [d]) ++ rev k2)%list).
  { rewrite <- (List.rev_involutive L), Hk2, rev_app_distr. by simpl. }
  rewrite HL in Hwf, Hhead. apply Forall_app in Hwf as [Hwf _].
  apply Forall_app in Hwf as [HwfD Hwfd]. apply Forall_inv in Hwfd.
  simpl. split.
  - destruct (rev D) as [|h t].
    + simpl. by apply char_head_not_space.
    + simpl in *. apply Forall_inv in HwfD. by apply char_head_not_space.
  - rewrite concat_chars_app. simpl. rewrite app_empty_r, rev_append.
    by apply char_last_not_space.
Qed.

(** X18. Under an enforced allow-list, a group id with a leading or a
    trailing space is never in scope, whatever the allow-list is: the
    configured entries are trimmed, the id of the event is not. *)
Theorem padded_group_id_out_of_scope (config : option (list (string * pyval)))
    (w0 : world) (p : QQBanPlugin) (g : string) :
  result (__init__ config) w0 = Ret p →
  truthy (enforce_whitelist p) = true →
  starts_with_space g || ends_with_space g = true →
  _group_allowed p g = false.
Proof.
  intros Hinit Henf Hpad.
  destruct (init_run _ _ _ Hinit) as (gids & _ & _ & Hwl).
  unfold _group_allowed. rewrite Henf, Hwl. simpl.
  destruct (String.eqb g ""); [done|].
  apply bool_decide_eq_false_2. intros Hin.
  apply elem_of_list_to_set, list_elem_of_In, in_map_iff in Hin as (gid & <- & _).
  destruct (strip_trimmed (str gid)) as [Hhead Hlast].
  by rewrite Hhead, Hlast in Hpad.
Qed.

(** ** What one event can cause *)

Section Outcomes.

Context (imported : bool) (fmt : string → list (string * string) → res string)
        (self : QQBanPlugin).

(** The effects of [_handle_group_request]: at most one call of the protocol
    client followed by at most one message; the call refuses the request when
    the user is on the blacklist and approves it otherwise, which takes
    automatic approval to be on. *)
Lemma join_request_shape (event : AstrMessageEvent) (raw : list (string * pyval))
    (w : world) :
  let listed :=
    bool_decide (event_user_id raw ∈ blacklist w (event_group_id event raw)) in
  ∃ calls notices,
    _handle_group_request imported self event raw w
      = (Ret tt, World (files w) (trace w ++ calls ++ notices)%list)
    ∧ (calls = []
       ∨ ∃ payload,
           calls = [CallAction "set_group_add_request" payload]
           ∧ dict_get payload "approve" PNone = PBool (negb listed)
           ∧ (listed || truthy (auto_approve_enabled self) = true))
    ∧ (notices = [] ∨ ∃ message, notices = [Yield message]).
Proof.
  simpl.
  assert (Hnone : ∀ w0 : world,
            (Ret tt, w0) = (Ret tt, World (files w0) (trace w0 ++ [] ++ [])%list)).
  { intros [fs tr]. simpl. by rewrite app_nil_r. }
  destruct (negb (String.eqb (event_group_id event raw) "")
            && negb (String.eqb (event_user_id raw) "")
            && truthy (dict_get raw "flag" PNone)) eqn:Hfields;
    [|exists [], []; split; [|by split; left];
      rewrite <- Hnone; apply join_request_dropped; by left].
  destruct (_group_allowed self (event_group_id event raw)) eqn:Hallowed;
    [|exists [], []; split; [|by split; left];
      rewrite <- Hnone; apply join_request_dropped; by right].
  rewrite (join_request_run _ _ _ _ _ Hfields Hallowed).
  unfold bind, emit, ret. rewrite !process_run.
  destruct (bool_decide _) eqn:Hlisted.
  - destruct (supported imported event), (truthy (notice_enabled self)); simpl.
    + eexists [_], [_]. split; [by rewrite <- app_assoc|].
      split; right; eexists; eauto.
    + eexists [_], []. split; [by rewrite app_nil_r|].
      split; [right; eexists; eauto | by left].
    + eexists [], [_]. split; [done|]. split; [by left | right; by eexists].
    + exists [], []. split; [by rewrite <- Hnone | by split; left].
  - destruct (truthy (auto_approve_enabled self)) eqn:Hauto;
      [|exists [], []; split; [by rewrite <- Hnone | by split; left]].
    destruct (supported imported event); simpl;
      [|exists [], []; split; [by rewrite <- Hnone | by split; left]].
    destruct (succeeded _ && truthy (notice_enabled self)); simpl.
    + eexists [_], [_]. split; [by rewrite <- app_assoc|].
      split; right; eexists; eauto.
    + eexists [_], []. split; [by rewrite app_nil_r|].
      split; [right; eexists; eauto | by left].
Qed.

(** X19. Handling one event, whether it returns or raises, calls the
    protocol client at most once, always with the action
    [set_group_add_request], and yields at most one message, after the call
    if there is one. *)
Theorem at_most_one_call_and_message (event : AstrMessageEvent) (w : world) :
  ∃ calls notices,
    trace (after (handle_group_events imported fmt self event) w)
      = (trace w ++ calls ++ notices)%list
    ∧ (calls = [] ∨ ∃ payload, calls = [CallAction "set_group_add_request" payload])
    ∧ (notices = [] ∨ ∃ message, notices = [Yield message]).
Proof.
  unfold after.
  destruct (dispatch_cases imported fmt self event)
    as [-> | (raw & _ & [[_ ->] | [_ ->]])].
  - exists [], []. simpl. rewrite app_nil_r. by repeat split; try left.
  - destruct (leave_shape fmt self event raw w) as (r & fs & effects & -> & Heffects).
    exists [], effects. simpl. split; [done|]. split; [by left | done].
  - destruct (join_request_shape event raw w)
      as (calls & notices & -> & Hcalls & Hnotices). simpl.
    exists calls, notices. split; [done|]. split; [|done].
    destruct Hcalls as [-> | (payload & -> & _)]; [by left | right; by eexists].
Qed.

(** X20. A join request is approved only when automatic approval is on,
    and never for a user on the blacklist of the group: with automatic
    approval off, or for a listed user, a call of the protocol client, if
    there is one, carries [approve = False]. *)
Theorem approve_needs_auto_and_unlisted (event : AstrMessageEvent)
    (raw : list (string * pyval)) (w : world) :
  _extract_raw_payload event = Some raw →
  is_join_request raw = true →
  truthy (auto_approve_enabled self) = false
  ∨ event_user_id raw ∈ blacklist w (event_group_id event raw) →
  ∃ effects,
    trace (after (handle_group_events imported fmt self event) w)
      = (trace w ++ effects)%list
    ∧ Forall (λ e, match e with
                   | CallAction _ payload => dict_get payload "approve" PNone = PBool false
                   | Yield _ => True
                   end) effects.
Proof.
  intros Hraw Hreq Hcase.
  rewrite (dispatch_join_request _ _ _ _ _ Hraw Hreq). unfold after.
  destruct (join_request_shape event raw w)
    as (calls & notices & -> & Hcalls & Hnotices). cbn [snd trace].
  exists (calls ++ notices)%list. split; [done|].
  apply Forall_app. split.
  - destruct Hcalls as [-> | (payload & -> & Happrove & Hwhy)]; [constructor|].
    constructor; [|constructor]. rewrite Happrove.
    destruct Hcase as [Hauto | Hin].
    + rewrite Hauto, orb_false_r in Hwhy. by rewrite Hwhy.
    + by rewrite bool_decide_eq_true_2.
  - destruct Hnotices as [-> | (message & ->)]; repeat constructor.
Qed.

End Outcomes.

(** ** The further properties on sample inputs *)

Lemma blacklist_file_per_group_witness :
  _blacklist_file "123" = "data/plugins/astrbot_plugin_qq_ban/" +:+ "123" +:+ "/blacklist.json".
Proof. apply (blacklist_file_per_group "123"); [reflexivity | discriminate]. Defined.

Lemma absolute_group_id_leaves_data_dir_witness :
  _group_dir "/srv/x" = "/srv/x"
  ∧ _blacklist_file "/srv/x" = "/srv/x" +:+ "/" +:+ "blacklist.json".
Proof. apply (absolute_group_id_leaves_data_dir "/srv/x"). reflexivity. Defined.



Lemma torn_write_empties_blacklist_witness :
  (result (_add_to_blacklist "123" lone_surrogate) world_42_listed = Ret true
   ∧ blacklist (after (_add_to_blacklist "123" lone_surrogate) world_42_listed) "123" = ∅)
  ∧ (result (_add_to_blacklist "123" "42") world_fragile = Ret true
     ∧ blacklist (after (_add_to_blacklist "123" "42") world_fragile) "123" = ∅).
Proof.
  split.
  - apply (torn_write_empties_blacklist "123" lone_surrogate world_42_listed).
    + vm_compute. discriminate.
    + vm_compute. reflexivity.
    + vm_compute. reflexivity.
    + vm_compute. discriminate.
    + left. vm_compute. reflexivity.
  - apply (torn_write_empties_blacklist "123" "42" world_fragile).
    + vm_compute. discriminate.
    + vm_compute. reflexivity.
    + vm_compute. reflexivity.
    + vm_compute. discriminate.
    + right. eexists. vm_compute. reflexivity.
Defined.

Lemma load_not_iterable_witness :
  _load_blacklist "123" world_number_file = (Ret ∅, world_number_file).
Proof.
  apply (load_not_iterable "123" (PInt 7) TypeError world_number_file);
    vm_compute; reflexivity.
Defined.

Lemma load_array_as_text_witness :
  result (_in_blacklist "123" "42") world_edited_file = Ret true
  ↔ ∃ item, item ∈ [PInt 42; PStr "x7"] ∧ str item = "42".
Proof.
  apply (load_array_as_text "123" [PInt 42; PStr "x7"] "42" world_edited_file).
  vm_compute. reflexivity.
Defined.



Lemma leave_yields_at_most_once_witness :
  ∃ effects,
    trace (after (handle_group_events true format_names plugin_open leave_event) world_42_listed)
      = (trace world_42_listed ++ effects)%list
    ∧ (effects = [] ∨ ∃ message, effects = [Yield message]).
Proof.
  apply (leave_yields_at_most_once true format_names plugin_open leave_event leave_raw
           world_42_listed).
  - reflexivity.
  - vm_compute. reflexivity.
Defined.

Lemma other_events_ignored_witness :
  handle_group_events true format_names plugin_open message_event world_42_listed
    = (Ret tt, world_42_listed).
Proof.
  apply (other_events_ignored true format_names plugin_open message_event world_42_listed).
  vm_compute. split; reflexivity.
Defined.

Lemma out_of_scope_dropped_witness :
  handle_group_events true format_names plugin_closed answered_request world_42_listed
    = (Ret tt, world_42_listed).
Proof.
  apply (out_of_scope_dropped true format_names plugin_closed answered_request request_raw
           world_42_listed).
  - reflexivity.
  - vm_compute. reflexivity.
Defined.

Lemma unlisted_request_left_pending_witness :
  handle_group_events true format_names plugin_manual answered_request empty_world
    = (Ret tt, empty_world).
Proof.
  apply (unlisted_request_left_pending true format_names plugin_manual answered_request
           request_raw empty_world).
  - reflexivity.
  - vm_compute. reflexivity.
  - reflexivity.
  - vm_compute. discriminate.
Defined.

Lemma unconfigured_plugin_inert_witness :
  result (__init__ (Some config_no_groups)) empty_world = Ret plugin_no_groups
  ∧ handle_group_events true format_names plugin_no_groups leave_event world_42_listed
    = (Ret tt, world_42_listed)
  ∧ handle_group_events true format_names plugin_no_groups answered_request world_42_listed
    = (Ret tt, world_42_listed).
Proof.
  assert (result (__init__ (Some config_no_groups)) empty_world = Ret plugin_no_groups)
    as Hinit by (vm_compute; reflexivity).
  split; [exact Hinit|].
  split;
    apply (unconfigured_plugin_inert (Some config_no_groups) empty_world plugin_no_groups
             Hinit eq_refl eq_refl).
Defined.

Lemma padded_group_id_out_of_scope_witness : _group_allowed plugin_123 "123 " = false.
Proof.
  apply (padded_group_id_out_of_scope (Some config_123) empty_world plugin_123 "123 ").
  - vm_compute. reflexivity.
  - reflexivity.
  - vm_compute. reflexivity.
Defined.

Lemma approve_needs_auto_and_unlisted_witness :
  ∃ effects,
    trace (after (handle_group_events true format_names plugin_open answered_request)
             world_42_listed)
      = (trace world_42_listed ++ effects)%list
    ∧ Forall (λ e, match e with
                   | CallAction _ payload => dict_get payload "approve" PNone = PBool false
                   | Yield _ => True
                   end) effects.
Proof.
  apply (approve_needs_auto_and_unlisted true format_names plugin_open answered_request
           request_raw world_42_listed).
  - reflexivity.
  - vm_compute. reflexivity.
  - right. vm_compute. reflexivity.
Defined.
